(** * paasta status: reconciliation of the planned pipeline with the
    actual deployments

    Shallow embedding of [paasta_tools/paasta_cli/cmds/status.py] and the
    properties of its planner, deployment reader, reconciler, filter
    validator and reporter.

    Python strings are [string] (the text is taken as already encoded to
    bytes, which is what [key.encode('utf8')] produces), the actual
    deployments dictionary is a [gmap string string], the [OrderedDict] of
    the planner is an association list in insertion order, and the printing
    functions run in a small output-and-exception monad. *)

From Stdlib Require Import ZArith Ascii Lia.
From stdpp Require Import base list strings gmap.

(** ** String methods

    Those the program calls ([split], [rfind], slices, [replace], [rstrip],
    [join]), and [count], [startswith] and [in], with which their results
    are described. *)

Module PyStr.

(** [s.split(sep)] for a separator of one character: as many pieces as
    there are separators, plus one. *)
Fixpoint split (sep : ascii) (s : string) : list string :=
  match s with
  | EmptyString => [EmptyString]
  | String c s' =>
      if decide (c = sep) then EmptyString :: split sep s'
      else match split sep s' with
           | [] => [String c EmptyString]
           | piece :: pieces => String c piece :: pieces
           end
  end.

(** [s.count(sep)]. *)
Fixpoint count (sep : ascii) (s : string) : nat :=
  match s with
  | EmptyString => 0
  | String c s' => (if decide (c = sep) then 1 else 0) + count sep s'
  end.

(** [s.rfind(c)]: the index of the last [c], or [-1]. *)
Fixpoint rfind (c : ascii) (s : string) : Z :=
  match s with
  | EmptyString => (-1)%Z
  | String a s' =>
      let r := rfind c s' in
      if (0 <=? r)%Z then (r + 1)%Z
      else if decide (a = c) then 0%Z else (-1)%Z
  end.

Fixpoint drop (n : nat) (s : string) : string :=
  match n, s with
  | 0, _ => s
  | S _, EmptyString => EmptyString
  | S n', String _ s' => drop n' s'
  end.

Fixpoint take (n : nat) (s : string) : string :=
  match n, s with
  | 0, _ => EmptyString
  | S _, EmptyString => EmptyString
  | S n', String c s' => String c (take n' s')
  end.

(** [s[k:]]; a negative [k] counts from the end. *)
Definition slice_from (k : Z) (s : string) : string :=
  if (k <? 0)%Z
  then drop (Z.to_nat (Z.max 0 (Z.of_nat (String.length s) + k))) s
  else drop (Z.to_nat k) s.

(** [s[:n]] for a literal [n >= 0]. *)
Definition slice_to (n : nat) (s : string) : string := take n s.

(** [s.startswith(p)]. *)
Fixpoint startswith (p s : string) : bool :=
  match p, s with
  | EmptyString, _ => true
  | String _ _, EmptyString => false
  | String a p', String b s' =>
      if decide (a = b) then startswith p' s' else false
  end.

(** [old in s]. *)
Fixpoint contains (old s : string) : bool :=
  if startswith old s then true
  else match s with
       | EmptyString => false
       | String _ s' => contains old s'
       end.

(** [s.replace(old, new, 1)]: the leftmost occurrence only. *)
Fixpoint replace_first (old new s : string) : string :=
  if startswith old s then new +:+ drop (String.length old) s
  else match s with
       | EmptyString => EmptyString
       | String c s' => String c (replace_first old new s')
       end.

(** [s.rstrip()]: trailing white space removed. *)
Fixpoint rstrip (s : string) : string :=
  match s with
  | EmptyString => EmptyString
  | String c s' =>
      match rstrip s' with
      | EmptyString => if Ascii.is_space c then EmptyString
                       else String c EmptyString
      | rest => String c rest
      end
  end.

(** [sep.join(l)]. *)
Fixpoint join (sep : string) (l : list string) : string :=
  match l with
  | [] => EmptyString
  | [x] => x
  | x :: rest => x +:+ sep +:+ join sep rest
  end.

End PyStr.

(** ** Exceptions and output

    [ValueError] is what a failed tuple unpacking raises, [SystemExit] what
    [exit] raises, and [ProbeError] stands for whatever the remote probe
    raises when it fails. *)

Inductive exn : Type :=
| ValueError
| ProbeError (msg : string)
| SystemExit (code : Z).

Inductive outcome (A : Type) : Type :=
| Ok (a : A)
| Raise (e : exn).
Arguments Ok {A} a.
Arguments Raise {A} e.

Definition obind {A B} (m : outcome A) (k : A → outcome B) : outcome B :=
  match m with
  | Ok a => k a
  | Raise e => Raise e
  end.

(** What the process writes: a [print] statement puts one line on the
    standard output, [sys.stderr.write] puts a text on the standard error. *)
Inductive event : Type :=
| Stdout (line : string)
| Stderr (text : string).

(** A computation that writes: what was written so far, then how it ended.
    What was written before an exception stays written. *)
Definition io (A : Type) : Type := list event * outcome A.

Definition ret {A} (a : A) : io A := ([], Ok a).

Definition bind {A B} (m : io A) (k : A → io B) : io B :=
  match m with
  | (out, Ok a) => let '(out', r) := k a in (out ++ out', r)
  | (out, Raise e) => (out, Raise e)
  end.

Definition print (line : string) : io unit := ([Stdout line], Ok tt).
Definition stderr_write (text : string) : io unit := ([Stderr text], Ok tt).
Definition lift {A} (m : outcome A) : io A := ([], m).

Global Instance outcome_ret : MRet outcome := λ A a, Ok a.
Global Instance outcome_bind : MBind outcome := λ A B k m, obind m k.
Global Instance io_ret : MRet io := λ A a, ret a.
Global Instance io_bind : MBind io := λ A B k m, bind m k.

(** A [for] loop whose body may print and raise. *)
Fixpoint for_each {A} (l : list A) (body : A → io unit) : io unit :=
  match l with
  | [] => mret tt
  | x :: l' => body x;; for_each l' body
  end.

(** Tuple unpacking [a, b = pieces]. *)
Definition unpack2 (pieces : list string) : outcome (string * string) :=
  match pieces with
  | [a; b] => Ok (a, b)
  | _ => Raise ValueError
  end.

Definition split2 (sep : ascii) (s : string) : outcome (string * string) :=
  unpack2 (PyStr.split sep s).

(** ** Data *)

(** Modelled from the spec: the remote status probe,
    [paasta_cli.utils.execute_paasta_serviceinit_on_remote_master], is not
    among the sources.  It takes the subcommand, the cluster, the service,
    the instance and the verbosity, and returns a multi-line status text or
    fails with [ProbeError]. *)
Definition remote_probe : Type :=
  string → string → string → string → bool → outcome string.

(** One step of [deploy.yaml]'s pipeline. *)
Record entry : Type := { instancename : string }.

Record deploy_info : Type := { pipeline : list entry }.

(** One value of [deployments.json]. *)
Record deployment : Type := { docker_image : string }.

(** The command line, as [argparse] hands it over. *)
Record args : Type := {
  arg_service : option string;
  arg_clusters : option string;
  arg_verbose : bool
}.

(** The planner's [OrderedDict]: keys in insertion order. *)
Definition odict : Type := list (string * list string).

Definition od_keys (d : odict) : list string := d.*1.

Fixpoint od_get (d : odict) (k : string) : list string :=
  match d with
  | [] => []
  | (k', v) :: d' => if decide (k' = k) then v else od_get d' k
  end.

(** [d.setdefault(k, []).append(x)]. *)
Fixpoint setdefault_append (d : odict) (k x : string) : odict :=
  match d with
  | [] => [(k, [x])]
  | (k', v) :: d' =>
      if decide (k' = k) then (k', v ++ [x]) :: d'
      else (k', v) :: setdefault_append d' k x
  end.

Definition nl : string := String "010"%char EmptyString.

(** ** The program *)

Section Status.

(** What the module imports from the rest of the tool. *)
Variable DEFAULT_SOA_DIR : string.
Variable DEPLOY_PIPELINE_NON_DEPLOY_STEPS : list string.
Variable DEPLOY_YAML_MISSING : string.
Variable load_deployments_json : string → string → list (string * deployment).
Variable read_deploy : string → option deploy_info.
Variable path_join : string → string → string → string.
Variable figure_out_service_name : args → string.
Variable get_pipeline_url : string → string.
Variable x_mark : string.
Variable blue red cyan : string → string.
Variable execute_paasta_serviceinit_on_remote_master : remote_probe.

Definition missing_deployments_message (service_name : string) : string :=
  let jenkins_url :=
    cyan ("https://jenkins.yelpcorp.com/view/services-" +:+ service_name) in
  x_mark +:+ " No deployments in deployments.json yet." +:+ nl +:+ "  "
    +:+ "Has Jenkins run?" +:+ nl +:+ "  "
    +:+ "Check: " +:+ jenkins_url.

Definition get_deploy_info (service_name : string) : io deploy_info :=
  let deploy_file_path :=
    path_join DEFAULT_SOA_DIR service_name "deploy.yaml" in
  match read_deploy deploy_file_path with
  | None => print DEPLOY_YAML_MISSING;; lift (Raise (SystemExit 1))
  | Some info => mret info
  end.

(** The first loop of [get_planned_deployments]. *)
Fixpoint plan_clusters (entries : list entry) (cluster_dict : odict)
  : outcome odict :=
  match entries with
  | [] => Ok cluster_dict
  | e :: rest =>
      let namespace := instancename e in
      if bool_decide (namespace ∉ DEPLOY_PIPELINE_NON_DEPLOY_STEPS) then
        '(cluster, instance) ← split2 "." namespace;
        plan_clusters rest (setdefault_append cluster_dict cluster instance)
      else plan_clusters rest cluster_dict
  end.

(** The second loop: what the generator yields. *)
Definition yield_targets (cluster_dict : odict) : list string :=
  cluster ← od_keys cluster_dict;
  instance ← od_get cluster_dict cluster;
  [cluster +:+ "." +:+ instance].

(** [list(get_planned_deployments(deploy_info))]. *)
Definition get_planned_deployments (info : deploy_info)
  : outcome (list string) :=
  cluster_dict ← plan_clusters (pipeline info) [];
  Ok (yield_targets cluster_dict).

Fixpoint deployed_clusters_loop (pipeline : list string)
    (actual_deployments : gmap string string)
    (deployed_clusters : list string) : outcome (list string) :=
  match pipeline with
  | [] => Ok deployed_clusters
  | namespace :: rest =>
      '(cluster_name, instance) ← split2 "." namespace;
      if bool_decide (is_Some (actual_deployments !! namespace)) then
        if bool_decide (cluster_name ∉ deployed_clusters) then
          deployed_clusters_loop rest actual_deployments
            (deployed_clusters ++ [cluster_name])
        else deployed_clusters_loop rest actual_deployments deployed_clusters
      else deployed_clusters_loop rest actual_deployments deployed_clusters
  end.

Definition list_deployed_clusters (pipeline : list string)
    (actual_deployments : gmap string string) : outcome (list string) :=
  deployed_clusters_loop pipeline actual_deployments [].

(** [value[value.rfind('-') + 1:]]. *)
Definition image_sha (value : string) : string :=
  PyStr.slice_from (PyStr.rfind "-" value + 1) value.

Fixpoint read_deployments (service_name : string)
    (items : list (string * deployment))
    (actual_deployments : gmap string string)
  : outcome (gmap string string) :=
  match items with
  | [] => Ok actual_deployments
  | (key, d) :: rest =>
      '(service, namespace) ← split2 ":" key;
      if decide (service = service_name) then
        let value := docker_image d in
        let sha := image_sha value in
        read_deployments service_name rest
          (<[PyStr.replace_first "paasta-" "" namespace := sha]>
             actual_deployments)
      else read_deployments service_name rest actual_deployments
  end.

Definition get_actual_deployments (service_name : string)
  : io (gmap string string) :=
  let deployments_json :=
    load_deployments_json service_name DEFAULT_SOA_DIR in
  (if decide (deployments_json = []) then
     stderr_write ("Warning: it looks like " +:+ service_name
                     +:+ " has not been deployed anywhere yet!")
   else mret tt);;
  lift (read_deployments service_name deployments_json ∅).

(** The two cases of the loop body of [report_status_for_cluster]: what
    is shown as instance and version, and the probe's text if any. *)
Definition instance_status (service cluster namespace instance : string)
    (actual_deployments : gmap string string) (verbose : bool)
  : io (string * string * option string) :=
  match actual_deployments !! namespace with
  | Some deployed_sha =>
      let unformatted_instance := instance in
      let instance := blue instance in
      let version := PyStr.slice_to 8 deployed_sha in
      status ← lift (execute_paasta_serviceinit_on_remote_master
                       "status" cluster service unformatted_instance verbose);
      mret (instance, version, Some status)
  | None =>
      let instance := red instance in
      mret (instance, "None", None)
  end.

Definition print_status_text (status : option string) : io unit :=
  match status with
  | Some text =>
      for_each (PyStr.split "010" (PyStr.rstrip text))
        (λ line, print ("    " +:+ line))
  | None => mret tt
  end.

(** The body of the loop of [report_status_for_cluster]; a target of
    another cluster is passed over ([continue]). *)
Definition report_target (service cluster : string)
    (actual_deployments : gmap string string) (verbose : bool)
    (namespace : string) : io unit :=
  '(cluster_in_pipeline, instance) ← lift (split2 "." namespace);
  if decide (cluster_in_pipeline ≠ cluster) then mret tt
  else
    '(instance, version, status) ←
      instance_status service cluster namespace instance
        actual_deployments verbose;
    print ("  instance: " +:+ instance);;
    print ("    Git sha:    " +:+ version);;
    print_status_text status.

Definition report_status_for_cluster (service cluster : string)
    (deploy_pipeline : list string)
    (actual_deployments : gmap string string) (verbose : bool) : io unit :=
  print "";;
  print ("cluster: " +:+ cluster);;
  for_each deploy_pipeline
    (report_target service cluster actual_deployments verbose).

Definition bogus_warning : string :=
  nl +:+ "Warning: The following clusters in the filter look bogus, this service"
     +:+ nl +:+ "is not deployed to the following cluster(s):" +:+ nl.

(** The loop of [report_bogus_filters]. *)
Definition bogus_clusters (cluster_filter deployed_clusters : list string)
  : list string :=
  fold_left
    (λ bogus c, if bool_decide (c ∉ deployed_clusters)
                then bogus ++ [c] else bogus)
    cluster_filter [].

Definition report_bogus_filters (cluster_filter : option (list string))
    (deployed_clusters : list string) : string :=
  match cluster_filter with
  | Some cluster_filter =>
      let bogus := bogus_clusters cluster_filter deployed_clusters in
      if decide (0 < length bogus)
      then bogus_warning +:+ PyStr.join "," bogus
      else ""
  | None => ""
  end.

Definition in_filter (cluster_filter : option (list string))
    (cluster : string) : bool :=
  match cluster_filter with
  | None => true
  | Some cluster_filter => bool_decide (cluster ∈ cluster_filter)
  end.

Definition report_status (service_name : string)
    (deploy_pipeline : list string)
    (actual_deployments : gmap string string)
    (cluster_filter : option (list string)) (verbose : bool) : io unit :=
  let pipeline_url := get_pipeline_url service_name in
  print ("Pipeline: " +:+ pipeline_url);;
  deployed_clusters ←
    lift (list_deployed_clusters deploy_pipeline actual_deployments);
  for_each deployed_clusters (λ cluster,
    if in_filter cluster_filter cluster
    then report_status_for_cluster service_name cluster deploy_pipeline
           actual_deployments verbose
    else mret tt);;
  print (report_bogus_filters cluster_filter deployed_clusters).

Definition paasta_status (a : args) : io unit :=
  let service_name := figure_out_service_name a in
  actual_deployments ← get_actual_deployments service_name;
  info ← get_deploy_info service_name;
  let cluster_filter := PyStr.split "," <$> arg_clusters a in
  if decide (actual_deployments ≠ ∅) then
    deploy_pipeline ← lift (get_planned_deployments info);
    report_status service_name deploy_pipeline actual_deployments
      cluster_filter (arg_verbose a)
  else print (missing_deployments_message service_name).

End Status.

(** ** Vocabulary of the properties *)

(** The [n]-th piece of [s] cut at [sep]. *)
Definition piece (sep : ascii) (n : nat) (s : string) : string :=
  default EmptyString (PyStr.split sep s !! n).

(** A target [cluster.instance], a key [service:namespace]. *)
Definition cluster_of (target : string) : string := piece "." 0 target.
Definition instance_of (target : string) : string := piece "." 1 target.
Definition service_of (key : string) : string := piece ":" 0 key.
Definition namespace_of (key : string) : string := piece ":" 1 key.

(** Exactly one separator. *)
Definition one_sep (sep : ascii) (s : string) : Prop := PyStr.count sep s = 1.
Definition well_formed_target (target : string) : Prop := one_sep "." target.
Definition well_formed_key (key : string) : Prop := one_sep ":" key.

Global Instance one_sep_dec sep s : Decision (one_sep sep s).
Proof. unfold one_sep. apply _. Defined.

(** Every element once, at the place where it comes first. *)
Fixpoint first_occurrences (l : list string) : list string :=
  match l with
  | [] => []
  | x :: l' => x :: filter (λ y, y ≠ x) (first_occurrences l')
  end.

Definition deployed_targets (actual : gmap string string)
    (targets : list string) : list string :=
  filter (λ target, is_Some (actual !! target)) targets.

(** The deployed-cluster list as the specification words it: the clusters
    of the targets that are keys of the mapping, each cluster once, at its
    first place. *)
Definition deployed_clusters_spec (targets : list string)
    (actual : gmap string string) : list string :=
  first_occurrences (cluster_of <$> deployed_targets actual targets).

(** The deploy steps of a raw pipeline. *)
Definition deploy_steps (non_deploy : list string) (info : deploy_info)
  : list string :=
  filter (λ namespace, namespace ∉ non_deploy) (instancename <$> pipeline info).

Definition cluster_targets (cluster : string) (targets : list string)
  : list string :=
  filter (λ target, cluster_of target = cluster) targets.

(** The planned targets as the specification words them: cluster by
    cluster in order of first appearance, and within a cluster the steps in
    their order, none dropped. *)
Definition planned_targets_spec (steps : list string) : list string :=
  cluster ← first_occurrences (cluster_of <$> steps);
  cluster_targets cluster steps.

(** The planner's dictionary after the steps [pairs]. *)
Definition grouped (pairs : list (string * string)) : odict :=
  (λ cluster, (cluster, (filter (λ p, p.1 = cluster) pairs).*2))
    <$> first_occurrences (pairs.*1).

Definition parse_target (target : string) : string * string :=
  (cluster_of target, instance_of target).

(** The entries of the record that belong to [service] and end under the
    key [namespace] of the mapping. *)
Definition entries_for (service namespace : string)
    (items : list (string * deployment)) : list (string * deployment) :=
  filter (λ kv, service_of kv.1 = service
                ∧ PyStr.replace_first "paasta-" "" (namespace_of kv.1) = namespace)
    items.

(** The version stored for an entry of the record. *)
Definition entry_version (kv : string * deployment) : string :=
  image_sha (docker_image kv.2).

Definition not_deployed_warning (service_name : string) : string :=
  "Warning: it looks like " +:+ service_name
    +:+ " has not been deployed anywhere yet!".

Inductive InstanceStatusLine : Type :=
| Deployed (version liveStatusText : string)
| NotDeployed.

(** A status line as the specification words it: the version is the
    mapping's value. *)
Definition classify_spec (actual : gmap string string)
    (probe : string → string) (target : string) : InstanceStatusLine :=
  match actual !! target with
  | Some version => Deployed version (probe (instance_of target))
  | None => NotDeployed
  end.

(** A status line as the report shows it: the version is cut to eight
    characters. *)
Definition classify (actual : gmap string string)
    (probe : string → string) (target : string) : InstanceStatusLine :=
  match actual !! target with
  | Some version =>
      Deployed (PyStr.slice_to 8 version) (probe (instance_of target))
  | None => NotDeployed
  end.

(** What is printed for one status line. *)
Definition render (blue red : string → string) (instance : string)
    (line : InstanceStatusLine) : list event :=
  match line with
  | Deployed version text =>
      [Stdout ("  instance: " +:+ blue instance);
       Stdout ("    Git sha:    " +:+ version)]
      ++ ((λ l, Stdout ("    " +:+ l)) <$> PyStr.split "010" (PyStr.rstrip text))
  | NotDeployed =>
      [Stdout ("  instance: " +:+ red instance);
       Stdout ("    Git sha:    " +:+ "None")]
  end.

(** What [report_status_for_cluster] prints when every probe returns. *)
Definition cluster_report (blue red : string → string)
    (classify : string → InstanceStatusLine)
    (cluster : string) (targets : list string) : list event :=
  [Stdout ""; Stdout ("cluster: " +:+ cluster)]
  ++ (target ← cluster_targets cluster targets;
      render blue red (instance_of target) (classify target)).

(** What the loop body of the per-cluster report writes for a target when
    its probe returns. *)
Definition target_lines (blue red : string → string) (cluster : string)
    (actual : gmap string string) (probe : string → string)
    (target : string) : list event :=
  if decide (cluster_of target = cluster)
  then render blue red (instance_of target) (classify actual probe target)
  else [].

(** The probe returns [probe instance] for a deployed target of the
    cluster. *)
Definition probe_returns
    (execute : remote_probe)
    (service cluster : string) (actual : gmap string string) (verbose : bool)
    (probe : string → string) (target : string) : Prop :=
  cluster_of target = cluster → is_Some (actual !! target) →
  execute "status" cluster service (instance_of target) verbose
  = Ok (probe (instance_of target)).

(** The deployed clusters the filter lets through. *)
Definition reported_clusters (cluster_filter : option (list string))
    (deployed : list string) : list string :=
  filter (λ cluster, in_filter cluster_filter cluster = true) deployed.

(** ** Sample data

    The pipeline, record and mapping of the specification's scenarios. *)

Module Sample.

Definition non_deploy : list string := ["itest"].

Definition info : deploy_info :=
  {| pipeline := [ {| instancename := "itest" |};
                   {| instancename := "norcal-prod.main" |};
                   {| instancename := "nova-prod.main" |} ] |}.

Definition targets : list string := ["norcal-prod.main"; "nova-prod.main"].

Definition record : list (string * deployment) :=
  [("myservice:paasta-main",
    {| docker_image := "services-myservice-a1b2c3d4" |})].

Definition actual : gmap string string :=
  {["norcal-prod.main" := "a1b2c3d4"]}.

(** A deployment recorded under its full image hash. *)
Definition long_actual : gmap string string :=
  {["norcal-prod.main" := "a1b2c3d4e5f60718"]}.

Definition everywhere : gmap string string :=
  <["nova-prod.main" := "a1b2c3d4"]> actual.

Definition blue (text : string) : string := "[blue]" +:+ text.
Definition red (text : string) : string := "[red]" +:+ text.
Definition cyan (text : string) : string := "[cyan]" +:+ text.

Definition pipeline_url (service : string) : string :=
  "https://jenkins.yelpcorp.com/view/services-" +:+ service.

(** A probe that answers. *)
Definition probe : remote_probe :=
  λ subcommand cluster service instance verbose, Ok "Marathon: up".

(** A probe that fails on norcal-prod. *)
Definition failing_probe : remote_probe :=
  λ subcommand cluster service instance verbose,
    if decide (cluster = "norcal-prod")
    then Raise (ProbeError "no connectable master")
    else Ok "Marathon: up".

Definition arguments : args :=
  {| arg_service := Some "myservice";
     arg_clusters := Some "norcal-prod,bogus-cluster";
     arg_verbose := false |}.

End Sample.

(** ** Further vocabulary *)


(** The raw pipeline whose steps are [targets]. *)
Definition pipeline_of (targets : list string) : deploy_info :=
  {| pipeline := Build_entry <$> targets |}.

(** The filter the command line gives. *)
Definition filter_of (a : args) : option (list string) :=
  PyStr.split "," <$> arg_clusters a.

(** ** Splitting *)

Section Split.
Context (sep : ascii).

Lemma split_length s : length (PyStr.split sep s) = S (PyStr.count sep s).
Proof.
  induction s as [|c s IH]; simpl; [done|].
  case_decide; simpl; [by rewrite IH|].
  destruct (PyStr.split sep s); simpl in *; lia.
Qed.

Lemma split_no_sep s : PyStr.count sep s = 0 → PyStr.split sep s = [s].
Proof.
  induction s as [|c s IH]; simpl; [done|].
  case_decide; [done|]. intros Hc. by rewrite IH.
Qed.

(** The pieces put back together with the separator are the string. *)
Lemma join_split s :
  PyStr.join (String sep EmptyString) (PyStr.split sep s) = s.
Proof.
  induction s as [|c s IH]; simpl; [done|].
  case_decide; subst.
  - pose proof (split_length s).
    destruct (PyStr.split sep s) as [|p ps] eqn:E; simpl in *; [lia|].
    by rewrite IH.
  - pose proof (split_length s).
    destruct (PyStr.split sep s) as [|p ps] eqn:E; simpl in *; [lia|].
    destruct ps; simpl in *; by rewrite <- IH.
Qed.

Lemma split_pieces_no_sep s :
  Forall (λ p, PyStr.count sep p = 0) (PyStr.split sep s).
Proof.
  induction s as [|c s IH]; simpl; [by repeat constructor|].
  case_decide; [by constructor|].
  destruct (PyStr.split sep s) as [|p ps].
  { repeat constructor. simpl. by case_decide. }
  inversion_clear IH. constructor; [|done].
  simpl. by case_decide.
Qed.

Lemma split_app_sep a b :
  PyStr.count sep a = 0 →
  PyStr.split sep (a +:+ String sep b) = a :: PyStr.split sep b.
Proof.
  induction a as [|c a IH]; simpl.
  - intros _. by case_decide.
  - case_decide; [done|]. intros Hc. by rewrite IH.
Qed.

Lemma count_app a b :
  PyStr.count sep (a +:+ b) = PyStr.count sep a + PyStr.count sep b.
Proof. induction a as [|c a IH]; simpl; [done|]. rewrite IH. lia. Qed.

Lemma split2_ok s :
  one_sep sep s → split2 sep s = Ok (piece sep 0 s, piece sep 1 s).
Proof.
  unfold one_sep, split2, piece. intros H.
  pose proof (split_length s) as Hl. rewrite H in Hl.
  by destruct (PyStr.split sep s) as [|a [|b [|??]]].
Qed.

Lemma split2_raise s :
  ¬ one_sep sep s → split2 sep s = Raise ValueError.
Proof.
  unfold one_sep, split2. intros H.
  pose proof (split_length s) as Hl.
  destruct (PyStr.split sep s) as [|a [|b [|??]]]; simpl in *; try done.
  destruct H. lia.
Qed.

Lemma split2_cases s :
  (one_sep sep s ∧ split2 sep s = Ok (piece sep 0 s, piece sep 1 s))
  ∨ (¬ one_sep sep s ∧ split2 sep s = Raise ValueError).
Proof.
  destruct (decide (one_sep sep s)); [left|right];
    eauto using split2_ok, split2_raise.
Qed.

Lemma pieces_join s :
  one_sep sep s → piece sep 0 s +:+ String sep (piece sep 1 s) = s.
Proof.
  unfold one_sep, piece. intros H.
  pose proof (split_length s) as Hl. rewrite H in Hl.
  pose proof (join_split s) as Hj.
  by destruct (PyStr.split sep s) as [|a [|b [|??]]].
Qed.

Lemma pieces_no_sep s n : PyStr.count sep (piece sep n s) = 0.
Proof.
  unfold piece. pose proof (split_pieces_no_sep s) as H.
  destruct (PyStr.split sep s !! n) as [p|] eqn:E; [|done].
  by eapply (Forall_lookup_1 _ _ _ _ H E).
Qed.

Lemma piece_0_join a b :
  PyStr.count sep a = 0 → piece sep 0 (a +:+ String sep b) = a.
Proof. intros H. unfold piece. by rewrite split_app_sep. Qed.

End Split.

(** ** First occurrences *)

Lemma filter_all {A} (P : A → Prop) `{!∀ x, Decision (P x)} (l : list A) :
  Forall P l → filter P l = l.
Proof.
  induction 1 as [|x l Hx _ IH]; [done|].
  by rewrite filter_cons_True, IH.
Qed.

Lemma filter_none {A} (P : A → Prop) `{!∀ x, Decision (P x)} (l : list A) :
  Forall (λ x, ¬ P x) l → filter P l = [].
Proof.
  induction 1 as [|x l Hx _ IH]; [done|].
  by rewrite filter_cons_False, IH.
Qed.

Lemma elem_of_first_occurrences x l : x ∈ first_occurrences l ↔ x ∈ l.
Proof.
  induction l as [|y l IH]; simpl; [done|].
  rewrite !elem_of_cons, list_elem_of_filter, IH.
  destruct (decide (x = y)); tauto.
Qed.

Lemma NoDup_first_occurrences l : NoDup (first_occurrences l).
Proof.
  induction l as [|y l IH]; simpl; constructor.
  - rewrite list_elem_of_filter. tauto.
  - by apply NoDup_filter.
Qed.

Lemma first_occurrences_sublist l : first_occurrences l `sublist_of` l.
Proof.
  induction l as [|y l IH]; simpl; [done|].
  apply sublist_skip. etrans; [apply sublist_filter|done].
Qed.

Lemma first_occurrences_filter (P : string → Prop) `{!∀ x, Decision (P x)} l :
  first_occurrences (filter P l) = filter P (first_occurrences l).
Proof.
  induction l as [|y l IH]; simpl; [done|].
  rewrite !filter_cons. case_decide; simpl; rewrite IH.
  - f_equal. rewrite !list_filter_filter. apply list_filter_iff. tauto.
  - rewrite list_filter_filter. apply list_filter_iff.
    intros x. intuition congruence.
Qed.

Lemma first_occurrences_snoc l x :
  first_occurrences (l ++ [x]) =
  if decide (x ∈ l) then first_occurrences l else first_occurrences l ++ [x].
Proof.
  induction l as [|y l IH]; simpl.
  - destruct (decide (x ∈ [])) as [Hin|_]; [by apply elem_of_nil in Hin|done].
  - rewrite IH.
    destruct (decide (x ∈ l)) as [Hin|Hin];
      destruct (decide (x ∈ y :: l)) as [Hin'|Hin'];
      rewrite elem_of_cons in Hin'; try done.
    + naive_solver.
    + destruct Hin' as [->|?]; [|done].
      rewrite filter_app, filter_cons_False by naive_solver.
      by rewrite filter_nil, app_nil_r.
    + rewrite filter_app, filter_cons_True by naive_solver. done.
Qed.

(** ** The deployed-cluster list *)

Lemma deployed_clusters_loop_spec targets actual seen :
  Forall well_formed_target targets →
  deployed_clusters_loop targets actual seen =
  Ok (seen ++ filter (λ c, c ∉ seen) (deployed_clusters_spec targets actual)).
Proof.
  unfold deployed_clusters_spec, deployed_targets.
  intros Hwf. revert seen.
  induction Hwf as [|t targets Ht _ IH]; intros seen; simpl.
  { by rewrite app_nil_r. }
  rewrite (split2_ok _ _ Ht). simpl. fold (cluster_of t).
  rewrite filter_cons. case_bool_decide as Hdep.
  - rewrite decide_True by done. simpl. rewrite filter_cons.
    case_bool_decide as Hseen.
    + rewrite decide_True by done.
      rewrite IH, <- app_assoc. simpl. do 3 f_equal.
      rewrite list_filter_filter. apply list_filter_iff.
      intros c. rewrite not_elem_of_app, list_elem_of_singleton. naive_solver.
    + rewrite decide_False by naive_solver. rewrite IH. do 2 f_equal.
      rewrite list_filter_filter. apply list_filter_iff.
      intros c. intuition congruence.
  - rewrite decide_False by done. apply IH.
Qed.

Lemma list_deployed_clusters_ok targets actual :
  Forall well_formed_target targets →
  list_deployed_clusters targets actual =
  Ok (deployed_clusters_spec targets actual).
Proof.
  intros Hwf. unfold list_deployed_clusters.
  rewrite deployed_clusters_loop_spec by done. simpl. f_equal.
  apply filter_all, Forall_forall. intros c _. apply not_elem_of_nil.
Qed.

(** On targets that are not grouped by cluster the order is that of the
    first deployed target of each cluster. *)
Example list_deployed_clusters_ungrouped :
  list_deployed_clusters ["a.x"; "b.y"; "a.z"]
    (<["b.y" := "1111"]> {["a.z" := "2222"]}) = Ok ["b"; "a"].
Proof. reflexivity. Qed.

Lemma elem_of_deployed_clusters_spec c targets actual :
  c ∈ deployed_clusters_spec targets actual ↔
  ∃ target, target ∈ targets ∧ cluster_of target = c
            ∧ is_Some (actual !! target).
Proof.
  unfold deployed_clusters_spec, deployed_targets.
  rewrite elem_of_first_occurrences, list_elem_of_fmap.
  setoid_rewrite list_elem_of_filter. firstorder congruence.
Qed.

Ltac solve_Forall :=
  repeat first [apply Forall_nil_2 | apply Forall_cons_2; [reflexivity|]].

(** ** The planner *)

Lemma list_bind_singleton {A B} (g : A → B) (l : list A) :
  (l ≫= λ x, [g x]) = g <$> l.
Proof.
  induction l as [|x l IH]; [done|].
  by rewrite bind_cons, fmap_cons, IH.
Qed.

Lemma setdefault_append_keyed (f : string → list string) ks c i :
  NoDup ks →
  setdefault_append ((λ k, (k, f k)) <$> ks) c i =
  if decide (c ∈ ks)
  then (λ k, (k, if decide (k = c) then f k ++ [i] else f k)) <$> ks
  else ((λ k, (k, f k)) <$> ks) ++ [(c, [i])].
Proof.
  induction 1 as [|k ks Hk _ IH].
  { destruct (decide (c ∈ [])) as [Hin|_]; [by apply elem_of_nil in Hin|done]. }
  rewrite !fmap_cons. simpl setdefault_append.
  destruct (decide (k = c)) as [->|Hne].
  - rewrite decide_True by apply list_elem_of_here.
    f_equal. apply list_fmap_ext. intros _ k' Hk'%list_elem_of_lookup_2.
    rewrite decide_False; [done|]. by intros ->.
  - rewrite IH. destruct (decide (c ∈ ks)) as [Hin|Hin].
    + rewrite decide_True by (by apply list_elem_of_further). done.
    + rewrite decide_False by (rewrite elem_of_cons; intuition congruence). done.
Qed.

Lemma od_get_keyed (f : string → list string) ks k :
  k ∈ ks → od_get ((λ k, (k, f k)) <$> ks) k = f k.
Proof.
  induction ks as [|k' ks IH]; simpl; [by intros ?%elem_of_nil|].
  intros [->|Hin]%elem_of_cons; case_decide; naive_solver.
Qed.

Lemma grouped_snoc pairs c i :
  setdefault_append (grouped pairs) c i = grouped (pairs ++ [(c, i)]).
Proof.
  unfold grouped.
  rewrite setdefault_append_keyed by apply NoDup_first_occurrences.
  rewrite fmap_app. simpl. rewrite first_occurrences_snoc.
  rewrite (decide_ext _ (c ∈ pairs.*1)) by apply elem_of_first_occurrences.
  destruct (decide (c ∈ pairs.*1)) as [Hin|Hin].
  - apply list_fmap_ext. intros _ k _. f_equal.
    rewrite filter_app, fmap_app, filter_cons, filter_nil. simpl.
    destruct (decide (k = c)) as [->|Hne].
    + by rewrite decide_True.
    + rewrite decide_False by naive_solver. by rewrite app_nil_r.
  - rewrite fmap_app. simpl. f_equal.
    + apply list_fmap_ext. intros _ k Hk%list_elem_of_lookup_2. f_equal.
      rewrite elem_of_first_occurrences in Hk.
      rewrite filter_app, filter_cons_False, filter_nil, app_nil_r; [done|].
      simpl. by intros ->.
    + do 2 f_equal. rewrite filter_app, filter_cons_True by done.
      rewrite filter_none; [done|].
      apply Forall_forall. intros p Hp Hc. apply Hin.
      rewrite <- Hc. by apply list_elem_of_fmap_2.
Qed.

Lemma plan_clusters_ok non_deploy entries pairs :
  Forall well_formed_target
    (filter (λ namespace, namespace ∉ non_deploy) (instancename <$> entries)) →
  plan_clusters non_deploy entries (grouped pairs) =
  Ok (grouped
        (pairs ++ (parse_target <$>
           filter (λ namespace, namespace ∉ non_deploy)
             (instancename <$> entries)))).
Proof.
  revert pairs. induction entries as [|e entries IH]; intros pairs; simpl.
  { by rewrite app_nil_r. }
  rewrite filter_cons. case_bool_decide as Hstep.
  - rewrite decide_True by done. intros [Hwf Hrest]%Forall_cons.
    rewrite (split2_ok _ _ Hwf). simpl.
    rewrite grouped_snoc, IH by done.
    by rewrite <- app_assoc.
  - rewrite decide_False by naive_solver. apply IH.
Qed.

Lemma yield_targets_grouped pairs :
  yield_targets (grouped pairs) =
  cluster ← first_occurrences (pairs.*1);
  (λ instance, cluster +:+ "." +:+ instance)
    <$> (filter (λ p, p.1 = cluster) pairs).*2.
Proof.
  unfold yield_targets, od_keys, grouped.
  rewrite <- list_fmap_compose, list_fmap_id.
  apply Forall_bind_ext, Forall_forall. intros c Hc.
  rewrite od_get_keyed by done.
  apply list_bind_singleton.
Qed.

Lemma cluster_steps_rejoined c steps :
  Forall well_formed_target steps →
  (λ instance, c +:+ "." +:+ instance)
    <$> (filter (λ p, p.1 = c) (parse_target <$> steps)).*2
  = cluster_targets c steps.
Proof.
  unfold cluster_targets.
  induction 1 as [|step steps Hwf _ IH]; [done|].
  rewrite fmap_cons, !filter_cons. simpl.
  destruct (decide (cluster_of step = c)) as [<-|Hne]; [|done].
  rewrite !fmap_cons, IH. f_equal.
  apply (pieces_join "." step Hwf).
Qed.

Lemma get_planned_deployments_ok non_deploy info :
  Forall well_formed_target (deploy_steps non_deploy info) →
  get_planned_deployments non_deploy info =
  Ok (planned_targets_spec (deploy_steps non_deploy info)).
Proof.
  intros Hwf. unfold get_planned_deployments.
  change (@nil (string * list string)) with (grouped []).
  rewrite plan_clusters_ok by done. simpl. f_equal.
  rewrite yield_targets_grouped. unfold planned_targets_spec.
  fold (deploy_steps non_deploy info).
  rewrite <- list_fmap_compose.
  apply Forall_bind_ext, Forall_forall. intros c _.
  by apply cluster_steps_rejoined.
Qed.

(** What the specified grouping keeps: every step, the order inside each
    cluster, and the order in which the clusters come up. *)

Lemma filter_eq_NoDup (x : string) (l : list string) :
  NoDup l → filter (λ c, c = x) l = if decide (x ∈ l) then [x] else [].
Proof.
  induction 1 as [|y l Hy _ IH].
  { destruct (decide (x ∈ [])) as [Hin|_]; [by apply elem_of_nil in Hin|done]. }
  rewrite filter_cons, IH.
  destruct (decide (y = x)) as [->|Hne].
  - rewrite decide_False by done.
    by rewrite decide_True by apply list_elem_of_here.
  - destruct (decide (x ∈ l)) as [Hin|Hin].
    + by rewrite decide_True by (by apply list_elem_of_further).
    + by rewrite decide_False by (rewrite elem_of_cons; intuition congruence).
Qed.

Lemma cluster_targets_cons c step steps :
  cluster_targets c (step :: steps) =
  if decide (cluster_of step = c) then step :: cluster_targets c steps
  else cluster_targets c steps.
Proof. unfold cluster_targets. by rewrite filter_cons. Qed.

Lemma cluster_targets_app c l1 l2 :
  cluster_targets c (l1 ++ l2) = cluster_targets c l1 ++ cluster_targets c l2.
Proof. apply filter_app. Qed.

Lemma cluster_targets_absent c steps :
  c ∉ cluster_of <$> steps → cluster_targets c steps = [].
Proof.
  intros Hc. apply filter_none, Forall_forall. intros step Hstep Heq.
  apply Hc. rewrite <- Heq. by apply list_elem_of_fmap_2.
Qed.

Lemma bind_cluster_targets_pick c (l steps : list string) :
  NoDup l → (c ∉ l → c ∉ cluster_of <$> steps) →
  (c' ← filter (λ c', c' = c) l; cluster_targets c' steps)
  = cluster_targets c steps.
Proof.
  intros Hl Hc. rewrite filter_eq_NoDup by done.
  destruct (decide (c ∈ l)) as [Hin|Hin].
  - apply (bind_singleton (λ c', cluster_targets c' steps)).
  - symmetry. by apply cluster_targets_absent, Hc.
Qed.

Lemma planned_targets_spec_cons step steps :
  planned_targets_spec (step :: steps) =
  step :: cluster_targets (cluster_of step) steps
  ++ (c ← filter (λ c, c ≠ cluster_of step)
            (first_occurrences (cluster_of <$> steps));
      cluster_targets c steps).
Proof.
  unfold planned_targets_spec. rewrite fmap_cons. simpl first_occurrences.
  rewrite bind_cons, cluster_targets_cons, decide_True by done.
  simpl. do 2 f_equal.
  apply Forall_bind_ext, Forall_forall.
  intros c [Hc _]%list_elem_of_filter.
  rewrite cluster_targets_cons, decide_False by naive_solver. done.
Qed.

Lemma planned_targets_spec_perm steps : planned_targets_spec steps ≡ₚ steps.
Proof.
  induction steps as [|step steps IH]; [done|].
  rewrite planned_targets_spec_cons. constructor.
  rewrite <- IH at 3. unfold planned_targets_spec.
  set (l := first_occurrences (cluster_of <$> steps)).
  rewrite <- (filter_app_complement (λ c, c = cluster_of step) l) at 2.
  rewrite bind_app. f_equiv.
  rewrite <- (bind_cluster_targets_pick (cluster_of step) l steps); [done|..].
  - apply NoDup_first_occurrences.
  - unfold l. by rewrite elem_of_first_occurrences.
Qed.

Lemma cluster_targets_bind_absent c (l steps : list string) :
  c ∉ l → cluster_targets c (c' ← l; cluster_targets c' steps) = [].
Proof.
  intros Hc. apply filter_none, Forall_forall.
  intros step (c' & [Hc' _]%list_elem_of_filter & Hin)%list_elem_of_bind Heq.
  congruence.
Qed.

Lemma cluster_targets_twice c c' steps :
  cluster_targets c (cluster_targets c' steps) =
  if decide (c' = c) then cluster_targets c steps else [].
Proof.
  unfold cluster_targets. rewrite list_filter_filter.
  destruct (decide (c' = c)) as [->|Hne].
  - apply list_filter_iff. tauto.
  - apply filter_none, Forall_forall. intros step _ [??]. congruence.
Qed.

Lemma cluster_targets_planned c steps :
  cluster_targets c (planned_targets_spec steps) = cluster_targets c steps.
Proof.
  unfold planned_targets_spec.
  assert (c ∉ first_occurrences (cluster_of <$> steps) →
          cluster_targets c steps = []) as Habs.
  { rewrite elem_of_first_occurrences. apply cluster_targets_absent. }
  pose proof (NoDup_first_occurrences (cluster_of <$> steps)) as Hnd.
  revert Habs Hnd. generalize (first_occurrences (cluster_of <$> steps)).
  intros l Habs Hnd. induction Hnd as [|c' l Hc' Hnd IH].
  { symmetry. apply Habs, not_elem_of_nil. }
  rewrite bind_cons, cluster_targets_app, cluster_targets_twice.
  destruct (decide (c' = c)) as [->|Hne].
  - rewrite cluster_targets_bind_absent by done. apply app_nil_r.
  - apply IH. intros Hc. apply Habs. rewrite elem_of_cons. intuition congruence.
Qed.

Lemma first_occurrences_app l1 l2 :
  first_occurrences (l1 ++ l2) =
  first_occurrences l1 ++ filter (λ x, x ∉ l1) (first_occurrences l2).
Proof.
  induction l1 as [|x l1 IH]; simpl.
  { symmetry. apply filter_all, Forall_forall. intros ? _. apply not_elem_of_nil. }
  rewrite IH, filter_app, list_filter_filter. do 2 f_equal.
  apply list_filter_iff. intros y. rewrite elem_of_cons. tauto.
Qed.

Lemma first_occurrences_constant (x : string) l :
  l ≠ [] → Forall (λ y, y = x) l → first_occurrences l = [x].
Proof.
  intros Hne Hall. destruct Hall as [|y l -> Hall]; [done|]. simpl. f_equal.
  apply filter_none, Forall_forall. intros z Hz.
  rewrite elem_of_first_occurrences in Hz.
  rewrite Forall_forall in Hall. naive_solver.
Qed.

Lemma planned_targets_spec_clusters steps :
  first_occurrences (cluster_of <$> planned_targets_spec steps) =
  first_occurrences (cluster_of <$> steps).
Proof.
  unfold planned_targets_spec.
  assert (∀ c, c ∈ first_occurrences (cluster_of <$> steps) →
               cluster_targets c steps ≠ []) as Hin.
  { intros c Hc. rewrite elem_of_first_occurrences in Hc.
    apply list_elem_of_fmap in Hc as (step & -> & Hstep).
    intros Hnil. eapply (filter_nil_not_elem_of _ _ step); [exact Hnil| |done].
    done. }
  pose proof (NoDup_first_occurrences (cluster_of <$> steps)) as Hnd.
  revert Hin Hnd. generalize (first_occurrences (cluster_of <$> steps)).
  intros l Hin Hnd. induction Hnd as [|c l Hc Hnd IH]; [done|].
  rewrite bind_cons, fmap_app, first_occurrences_app.
  rewrite (first_occurrences_constant c).
  - rewrite IH.
    + simpl. f_equal. apply filter_all, Forall_forall.
      intros c' Hc' (step & -> & [Hs _]%list_elem_of_filter)%list_elem_of_fmap.
      congruence.
    + intros c' Hc'. apply Hin. by apply list_elem_of_further.
  - intros Hnil%fmap_nil_inv. revert Hnil. apply Hin, list_elem_of_here.
  - apply Forall_fmap, Forall_forall. by intros step [Hs _]%list_elem_of_filter.
Qed.

(** On the targets the planner yields, the deployed clusters keep the order
    in which the clusters come up among all the targets. *)

Lemma filter_bind {A B} (P : B → Prop) `{!∀ x, Decision (P x)}
    (f : A → list B) (l : list A) :
  filter P (l ≫= f) = l ≫= (λ x, filter P (f x)).
Proof.
  induction l as [|x l IH]; [done|].
  by rewrite !bind_cons, filter_app, IH.
Qed.

Lemma fmap_bind {A B C} (g : B → C) (f : A → list B) (l : list A) :
  g <$> (l ≫= f) = l ≫= (λ x, g <$> f x).
Proof.
  induction l as [|x l IH]; [done|].
  by rewrite !bind_cons, fmap_app, IH.
Qed.

Lemma first_occurrences_bind_constant (G : string → list string) l :
  NoDup l → (∀ c, Forall (λ y, y = c) (G c)) →
  first_occurrences (l ≫= G) = filter (λ c, G c ≠ []) l.
Proof.
  intros Hnd HG. induction Hnd as [|c l Hc Hnd IH]; [done|].
  rewrite bind_cons, first_occurrences_app, IH, filter_cons.
  destruct (decide (G c ≠ [])) as [Hne|Hnil].
  - rewrite (first_occurrences_constant c) by done. simpl. f_equal.
    apply filter_all, Forall_forall.
    intros c' [_ Hc']%list_elem_of_filter Hin.
    specialize (HG c). rewrite Forall_forall in HG.
    apply HG in Hin. congruence.
  - apply dec_stable in Hnil. rewrite Hnil. simpl.
    apply filter_all, Forall_forall. intros ? _. apply not_elem_of_nil.
Qed.

Lemma deployed_clusters_planned steps actual :
  deployed_clusters_spec (planned_targets_spec steps) actual =
  filter (λ c, Exists (λ target, cluster_of target = c
                                 ∧ is_Some (actual !! target))
                 (planned_targets_spec steps))
    (first_occurrences (cluster_of <$> planned_targets_spec steps)).
Proof.
  rewrite planned_targets_spec_clusters.
  unfold deployed_clusters_spec, deployed_targets.
  unfold planned_targets_spec at 1. rewrite filter_bind, fmap_bind.
  rewrite first_occurrences_bind_constant.
  - apply list_filter_iff. intros c.
    rewrite Exists_exists.
    setoid_rewrite (planned_targets_spec_perm steps). split.
    + intros Hne.
      destruct (cluster_of <$> filter _ (cluster_targets c steps))
        as [|c' l] eqn:E; [done|].
      assert (c' ∈ cluster_of <$>
                filter (λ target, is_Some (actual !! target))
                  (cluster_targets c steps)) as Hin.
      { rewrite E. apply list_elem_of_here. }
      apply list_elem_of_fmap in Hin as (target & _ & Hin).
      apply list_elem_of_filter in Hin as [Hdep Hin].
      apply list_elem_of_filter in Hin as [Hc Hin]. eauto.
    + intros (target & Hin & Hc & Hdep) Hnil%fmap_nil_inv.
      apply (filter_nil_not_elem_of _ _ target Hnil Hdep).
      by apply list_elem_of_filter.
  - apply NoDup_first_occurrences.
  - intros c. apply Forall_fmap, Forall_forall.
    intros target [_ Hin]%list_elem_of_filter.
    by apply list_elem_of_filter in Hin as [Hc _].
Qed.

(** C1: on a sequence of [cluster.instance] targets, [list_deployed_clusters]
    returns the clusters of the targets that are keys of the mapping, each
    once, in the order in which they first come up; a cluster is in the
    result exactly when one of its targets is a key of the mapping, and the
    result is a subsequence of the targets' clusters.  On targets grouped by
    cluster as the planner yields them, this is the order in which the
    clusters come up among all the targets. *)
Theorem list_deployed_clusters_correct
    (targets : list string) (actual : gmap string string) :
  Forall well_formed_target targets →
  ∃ clusters,
    list_deployed_clusters targets actual = Ok clusters
    ∧ clusters = first_occurrences (cluster_of <$> deployed_targets actual targets)
    ∧ NoDup clusters
    ∧ (∀ c, c ∈ clusters ↔
            ∃ target, target ∈ targets ∧ cluster_of target = c
                      ∧ is_Some (actual !! target))
    ∧ clusters `sublist_of` (cluster_of <$> targets)
    ∧ (∀ steps, targets = planned_targets_spec steps →
         clusters =
         filter (λ c, Exists (λ target, cluster_of target = c
                                        ∧ is_Some (actual !! target)) targets)
           (first_occurrences (cluster_of <$> targets))).
Proof.
  intros Hwf. exists (deployed_clusters_spec targets actual).
  split_and!; [..|intros steps ->; apply deployed_clusters_planned].
  - by apply list_deployed_clusters_ok.
  - done.
  - apply NoDup_first_occurrences.
  - intros c. apply elem_of_deployed_clusters_spec.
  - etrans; [apply first_occurrences_sublist|].
    apply fmap_sublist, sublist_filter.
Qed.

Lemma list_deployed_clusters_correct_witness :
  Forall well_formed_target Sample.targets
  ∧ ∃ clusters,
      list_deployed_clusters Sample.targets Sample.actual = Ok clusters
      ∧ clusters = first_occurrences
                     (cluster_of <$> deployed_targets Sample.actual Sample.targets)
      ∧ NoDup clusters
      ∧ (∀ c, c ∈ clusters ↔
              ∃ target, target ∈ Sample.targets ∧ cluster_of target = c
                        ∧ is_Some (Sample.actual !! target))
      ∧ clusters `sublist_of` (cluster_of <$> Sample.targets)
      ∧ (∀ steps, Sample.targets = planned_targets_spec steps →
           clusters =
           filter (λ c, Exists (λ target, cluster_of target = c
                                  ∧ is_Some (Sample.actual !! target))
                          Sample.targets)
             (first_occurrences (cluster_of <$> Sample.targets))).
Proof.
  split; [solve_Forall|].
  apply (list_deployed_clusters_correct Sample.targets Sample.actual).
  solve_Forall.
Defined.

Lemma plan_clusters_raise non_deploy entries cluster_dict :
  Exists (λ step, ¬ well_formed_target step)
    (filter (λ namespace, namespace ∉ non_deploy) (instancename <$> entries)) →
  plan_clusters non_deploy entries cluster_dict = Raise ValueError.
Proof.
  revert cluster_dict.
  induction entries as [|e entries IH]; intros cluster_dict; simpl.
  { by intros ?%Exists_nil. }
  rewrite filter_cons. case_bool_decide as Hstep.
  - rewrite decide_True by done. intros Hbad%Exists_cons.
    destruct (split2_cases "." (instancename e)) as [[Hwf ->]|[_ ->]]; [|done].
    simpl. apply IH. tauto.
  - rewrite decide_False by naive_solver. apply IH.
Qed.

Lemma get_planned_deployments_raise non_deploy info :
  Exists (λ step, ¬ well_formed_target step) (deploy_steps non_deploy info) →
  get_planned_deployments non_deploy info = Raise ValueError.
Proof.
  intros Hbad. unfold get_planned_deployments.
  by rewrite plan_clusters_raise.
Qed.

Lemma elem_of_deploy_steps non_deploy info step :
  step ∈ deploy_steps non_deploy info ↔
  ∃ e, e ∈ pipeline info ∧ instancename e = step ∧ step ∉ non_deploy.
Proof.
  unfold deploy_steps. rewrite list_elem_of_filter, list_elem_of_fmap.
  firstorder congruence.
Qed.

(** C2: the planner skips the non-deploy steps and yields the deploy steps
    cluster by cluster: the clusters in the order in which they first come up
    in the raw pipeline, the steps of a cluster in their order, none dropped
    and none deduplicated; on the steps itest, norcal-prod.main and
    nova-prod.main with non-deploy set itest it yields norcal-prod.main and
    nova-prod.main. *)
Theorem get_planned_deployments_grouped
    (non_deploy : list string) (info : deploy_info) :
  (Forall well_formed_target (deploy_steps non_deploy info) →
   ∃ targets,
     get_planned_deployments non_deploy info = Ok targets
     ∧ targets = (cluster ← first_occurrences
                              (cluster_of <$> deploy_steps non_deploy info);
                  cluster_targets cluster (deploy_steps non_deploy info))
     ∧ targets ≡ₚ deploy_steps non_deploy info
     ∧ (∀ c, cluster_targets c targets
             = cluster_targets c (deploy_steps non_deploy info))
     ∧ first_occurrences (cluster_of <$> targets)
       = first_occurrences (cluster_of <$> deploy_steps non_deploy info))
  ∧ get_planned_deployments Sample.non_deploy Sample.info
    = Ok ["norcal-prod.main"; "nova-prod.main"].
Proof.
  split; [|reflexivity].
  intros Hwf. exists (planned_targets_spec (deploy_steps non_deploy info)).
  split_and!.
  - by apply get_planned_deployments_ok.
  - done.
  - apply planned_targets_spec_perm.
  - intros c. apply cluster_targets_planned.
  - apply planned_targets_spec_clusters.
Qed.

Lemma get_planned_deployments_grouped_witness :
  ∃ targets,
    get_planned_deployments ["itest"]
      {| pipeline := [ {| instancename := "itest" |};
                       {| instancename := "b.web" |};
                       {| instancename := "a.main" |};
                       {| instancename := "b.web" |};
                       {| instancename := "b.canary" |} ] |} = Ok targets
    ∧ targets = ["b.web"; "b.web"; "b.canary"; "a.main"].
Proof.
  destruct (get_planned_deployments_grouped ["itest"]
      {| pipeline := [ {| instancename := "itest" |};
                       {| instancename := "b.web" |};
                       {| instancename := "a.main" |};
                       {| instancename := "b.web" |};
                       {| instancename := "b.canary" |} ] |}) as [Hplan _].
  destruct Hplan as (targets & Hrun & Hspec & _); [solve_Forall|].
  exists targets. split; [exact Hrun|]. rewrite Hspec. reflexivity.
Defined.

(** C8: the planner raises on a deploy step whose namespace does not hold
    exactly one dot, whether none or several, and on nothing else: it returns
    the targets exactly when every deploy step holds one dot. *)
Theorem get_planned_deployments_malformed
    (non_deploy : list string) (info : deploy_info) :
  (get_planned_deployments non_deploy info = Raise ValueError ↔
   (∃ e, e ∈ pipeline info ∧ (instancename e ∉ non_deploy)
         ∧ PyStr.count "." (instancename e) ≠ 1))
  ∧ ((∃ targets, get_planned_deployments non_deploy info = Ok targets) ↔
     (∀ e, e ∈ pipeline info → instancename e ∉ non_deploy →
           PyStr.count "." (instancename e) = 1)).
Proof.
  destruct (decide (Forall well_formed_target (deploy_steps non_deploy info)))
    as [Hwf|Hbad].
  - rewrite get_planned_deployments_ok by done.
    rewrite Forall_forall in Hwf. split; split.
    + done.
    + intros (e & He & Hstep & Hdots). destruct Hdots.
      apply Hwf, elem_of_deploy_steps. eauto.
    + intros _ e He Hstep. apply Hwf, elem_of_deploy_steps. eauto.
    + eauto.
  - apply not_Forall_Exists in Hbad; [|apply _].
    rewrite get_planned_deployments_raise by done.
    apply Exists_exists in Hbad as (step & Hstep & Hdots).
    apply elem_of_deploy_steps in Hstep as (e & He & <- & Hnd).
    split; split.
    + eauto.
    + done.
    + by intros [? ?].
    + intros Hall. destruct Hdots. by apply Hall.
Qed.

(** ** The filter validator *)

Lemma bogus_clusters_from (acc cluster_filter deployed : list string) :
  fold_left
    (λ bogus c, if bool_decide (c ∉ deployed) then bogus ++ [c] else bogus)
    cluster_filter acc
  = acc ++ filter (λ c, c ∉ deployed) cluster_filter.
Proof.
  revert acc. induction cluster_filter as [|c cf IH]; intros acc; simpl.
  { by rewrite app_nil_r. }
  rewrite IH, filter_cons. case_bool_decide.
  - rewrite decide_True by done. by rewrite <- app_assoc.
  - by rewrite decide_False by naive_solver.
Qed.

Lemma bogus_clusters_filter (cluster_filter deployed : list string) :
  bogus_clusters cluster_filter deployed
  = filter (λ c, c ∉ deployed) cluster_filter.
Proof. apply (bogus_clusters_from []). Qed.

Lemma bogus_warning_not_empty text : bogus_warning +:+ text ≠ "".
Proof. done. Qed.

Lemma split_join sep (l : list string) :
  l ≠ [] → Forall (λ x, PyStr.count sep x = 0) l →
  PyStr.split sep (PyStr.join (String sep EmptyString) l) = l.
Proof.
  intros Hne Hall. induction Hall as [|x l Hx Hall IH]; [done|].
  destruct l as [|y l].
  - simpl. by apply split_no_sep.
  - change (PyStr.join (String sep EmptyString) (x :: y :: l))
      with (x +:+ String sep (PyStr.join (String sep EmptyString) (y :: l))).
    rewrite split_app_sep by done. f_equal. by apply IH.
Qed.

(** C9: [report_bogus_filters] lists exactly the filter entries that are not
    deployed clusters, in the filter's order, after its warning text, and
    returns the empty string exactly when the filter is absent or every entry
    is a deployed cluster. *)
Theorem report_bogus_filters_correct
    (cluster_filter : option (list string)) (deployed : list string) :
  report_bogus_filters cluster_filter deployed =
    match cluster_filter with
    | None => ""
    | Some entries =>
        match filter (λ c, c ∉ deployed) entries with
        | [] => ""
        | bogus => bogus_warning +:+ PyStr.join "," bogus
        end
    end
  ∧ (∀ entries, bogus_clusters entries deployed
                = filter (λ c, c ∉ deployed) entries)
  ∧ (∀ text, PyStr.split "," (PyStr.join ","
                (filter (λ c, c ∉ deployed) (PyStr.split "," text)))
             = filter (λ c, c ∉ deployed) (PyStr.split "," text)
             ∨ filter (λ c, c ∉ deployed) (PyStr.split "," text) = [])
  ∧ (report_bogus_filters cluster_filter deployed = "" ↔
     (cluster_filter = None
      ∨ (∃ entries, cluster_filter = Some entries ∧ entries ⊆ deployed))).
Proof.
  split_and!.
  - destruct cluster_filter as [entries|]; [|done].
    unfold report_bogus_filters. rewrite bogus_clusters_filter.
    destruct (filter _ entries); [done|].
    by rewrite decide_True by (simpl; lia).
  - intros entries. apply bogus_clusters_filter.
  - intros text.
    destruct (filter (λ c, c ∉ deployed) (PyStr.split "," text)) as [|c l] eqn:E;
      [by right|left].
    apply (split_join ","); [done|]. rewrite <- E.
    apply Forall_forall. intros x [_ Hx]%list_elem_of_filter. revert x Hx.
    apply Forall_forall, split_pieces_no_sep.
  - destruct cluster_filter as [entries|]; [|naive_solver].
    unfold report_bogus_filters. rewrite bogus_clusters_filter.
    destruct (filter (λ c, c ∉ deployed) entries) as [|c l] eqn:E.
    + split; [|done]. intros _. right. exists entries. split; [done|].
      intros c Hc. destruct (decide (c ∈ deployed)) as [|Hno]; [done|].
      destruct (filter_nil_not_elem_of _ entries c E Hno Hc).
    + rewrite decide_True by (simpl; lia). split.
      * by intros ?%bogus_warning_not_empty.
      * intros [?|(entries' & [= <-] & Hsub)]; [done|].
        assert (c ∈ filter (λ c, c ∉ deployed) entries) as Hc.
        { rewrite E. apply list_elem_of_here. }
        apply list_elem_of_filter in Hc as [Hc Hin]. destruct Hc. by apply Hsub.
Qed.

(** ** The deployment reader *)

Lemma string_app_cons c (a b : string) :
  String c a +:+ b = String c (a +:+ b).
Proof. done. Qed.

Lemma string_app_assoc (a b c : string) : (a +:+ b) +:+ c = a +:+ b +:+ c.
Proof.
  induction a as [|x a IH]; [done|].
  by rewrite !string_app_cons, IH.
Qed.

Lemma string_app_nil_r (a : string) : a +:+ "" = a.
Proof. induction a as [|x a IH]; [done|]. by rewrite string_app_cons, IH. Qed.

Lemma string_length_app (a b : string) :
  String.length (a +:+ b) = String.length a + String.length b.
Proof.
  induction a as [|x a IH]; [done|].
  rewrite string_app_cons. simpl. by rewrite IH.
Qed.

Lemma drop_app_length (a b : string) : PyStr.drop (String.length a) (a +:+ b) = b.
Proof. induction a as [|x a IH]; [by destruct b|]. by rewrite string_app_cons. Qed.

Lemma take_drop (n : nat) (s : string) : PyStr.take n s +:+ PyStr.drop n s = s.
Proof.
  revert s. induction n as [|n IH]; intros [|c s]; simpl; try done.
  by rewrite string_app_cons, IH.
Qed.

(** Where [rfind] points. *)
Lemma rfind_spec c s :
  (PyStr.count c s = 0 ∧ PyStr.rfind c s = (-1)%Z)
  ∨ (∃ pre post, s = pre +:+ String c post ∧ PyStr.count c post = 0
                 ∧ PyStr.rfind c s = Z.of_nat (String.length pre)).
Proof.
  induction s as [|a s IH]; simpl; [by left|].
  destruct IH as [[Hcount ->]|(pre & post & -> & Hpost & ->)].
  - simpl. case_decide as Ha.
    + subst a. right. exists "", s. done.
    + left. by rewrite Hcount.
  - right. exists (String a pre), post.
    rewrite string_app_cons. split_and!; [done..|].
    case_match eqn:Hle; [simpl; lia|]. apply Z.leb_gt in Hle. lia.
Qed.

(** The version is what follows the last dash, the whole image reference
    when it holds none. *)
Lemma image_sha_no_dash value :
  PyStr.count "-" value = 0 → image_sha value = value.
Proof.
  intros Hcount. unfold image_sha.
  destruct (rfind_spec "-" value) as [[_ ->]|(pre & post & -> & _ & _)].
  - done.
  - rewrite count_app in Hcount. simpl in Hcount. lia.
Qed.

Lemma image_sha_after_last_dash value :
  PyStr.count "-" value ≠ 0 →
  ∃ pre, value = pre +:+ "-" +:+ image_sha value
         ∧ PyStr.count "-" (image_sha value) = 0.
Proof.
  intros Hcount. unfold image_sha.
  destruct (rfind_spec "-" value) as [[? _]|(pre & post & -> & Hpost & ->)];
    [done|].
  exists pre. unfold PyStr.slice_from.
  case_match eqn:Hlt; [apply Z.ltb_lt in Hlt; lia|].
  replace (Z.to_nat (Z.of_nat (String.length pre) + 1))
    with (String.length (pre +:+ "-")) by (rewrite string_length_app; simpl; lia).
  change (pre +:+ String "-" post) with (pre +:+ "-" +:+ post).
  rewrite <- string_app_assoc, drop_app_length. by rewrite string_app_assoc.
Qed.

(** What [replace('paasta-', '', 1)] removes. *)
Lemma startswith_app old s :
  PyStr.startswith old s = true →
  s = old +:+ PyStr.drop (String.length old) s.
Proof.
  revert s. induction old as [|a old IH]; intros [|b s]; simpl; try done.
  case_decide as Hab; [|done]. subst b. intros Hs.
  rewrite string_app_cons. f_equal. by apply IH.
Qed.

Lemma startswith_prefix old s rest :
  PyStr.startswith old s = true → PyStr.startswith old (s +:+ rest) = true.
Proof.
  revert s. induction old as [|a old IH]; intros [|b s]; simpl; try done.
  case_decide; [|done]. apply IH.
Qed.

Lemma startswith_short old s :
  String.length s < String.length old → PyStr.startswith old s = false.
Proof.
  revert s. induction old as [|a old IH]; intros [|b s]; simpl;
    try done; try lia.
  intros Hlen. case_decide; [|done]. apply IH. lia.
Qed.

Lemma contains_short old s :
  String.length s < String.length old → PyStr.contains old s = false.
Proof.
  induction s as [|b s IH]; simpl; intros Hlen.
  - destruct old; [simpl in Hlen; lia|done].
  - rewrite startswith_short by (simpl; lia).
    apply IH. lia.
Qed.

Lemma replace_first_absent old new s :
  PyStr.contains old s = false → PyStr.replace_first old new s = s.
Proof.
  induction s as [|c s IH]; simpl.
  - by destruct (PyStr.startswith old "").
  - destruct (PyStr.startswith old (String c s)); [done|].
    intros Hs. by rewrite IH.
Qed.

Lemma length_take_le n s : String.length (PyStr.take n s) ≤ n.
Proof.
  revert s. induction n as [|n IH]; intros [|c s]; simpl; try lia.
  specialize (IH s). lia.
Qed.

(** The occurrence removed is the leftmost one: no other begins before it. *)
Lemma replace_first_leftmost old new s :
  old ≠ "" → PyStr.contains old s = true →
  ∃ pre post,
    s = pre +:+ old +:+ post
    ∧ PyStr.replace_first old new s = pre +:+ new +:+ post
    ∧ PyStr.contains old
        (pre +:+ PyStr.take (String.length old - 1) old) = false.
Proof.
  intros Hold. induction s as [|c s IH]; simpl.
  - destruct old; [done|]. done.
  - destruct (PyStr.startswith old (String c s)) eqn:Hstart.
    + intros _. exists "", (PyStr.drop (String.length old) (String c s)).
      split_and!; [by apply startswith_app|done|].
      apply contains_short.
      pose proof (length_take_le (String.length old - 1) old).
      change ("" +:+ ?x) with x.
      assert (0 < String.length old) by (destruct old; simpl; [done|lia]).
      lia.
    + intros (pre & post & -> & -> & Hleft)%IH.
      exists (String c pre), post. split_and!; [done..|].
      rewrite string_app_cons. simpl.
      case_match eqn:Hstart'; [|done].
      rewrite <- Hstart.
      assert (String c (pre +:+ old +:+ post)
              = String c (pre +:+ PyStr.take (String.length old - 1) old)
                +:+ PyStr.drop (String.length old - 1) old +:+ post) as ->.
      { rewrite string_app_cons, string_app_assoc.
        by rewrite <- (string_app_assoc (PyStr.take _ _)), take_drop. }
      symmetry. by apply startswith_prefix.
Qed.

Lemma read_deployments_lookup service items acc :
  Forall (λ kv, well_formed_key kv.1) items →
  ∃ actual,
    read_deployments service items acc = Ok actual
    ∧ ∀ ns, actual !! ns =
            match last (entries_for service ns items) with
            | Some kv => Some (entry_version kv)
            | None => acc !! ns
            end.
Proof.
  intros Hwf. revert acc.
  induction Hwf as [|[key d] items Hkey _ IH]; intros acc.
  { by exists acc. }
  simpl in Hkey. simpl. rewrite (split2_ok _ _ Hkey). simpl.
  fold (service_of key) (namespace_of key).
  destruct (decide (service_of key = service)) as [Hsvc|Hsvc].
  - destruct (IH (<[PyStr.replace_first "paasta-" "" (namespace_of key)
                    := image_sha (docker_image d)]> acc))
      as (actual & -> & Hlookup).
    exists actual. split; [done|]. intros ns. rewrite Hlookup.
    unfold entries_for at 2. rewrite filter_cons. simpl.
    fold (entries_for service ns items).
    destruct (decide (PyStr.replace_first "paasta-" "" (namespace_of key) = ns))
      as [Hns|Hns].
    + rewrite decide_True by done. rewrite last_cons.
      destruct (last (entries_for service ns items)); [done|].
      rewrite Hns. apply lookup_insert_eq.
    + rewrite decide_False by tauto.
      destruct (last (entries_for service ns items)); [done|].
      by apply lookup_insert_ne.
  - destruct (IH acc) as (actual & -> & Hlookup).
    exists actual. split; [done|]. intros ns. rewrite Hlookup.
    unfold entries_for at 2. rewrite filter_cons. simpl.
    by rewrite decide_False by tauto.
Qed.

Lemma read_deployments_raise service items acc :
  Exists (λ kv, ¬ well_formed_key kv.1) items →
  read_deployments service items acc = Raise ValueError.
Proof.
  revert acc. induction items as [|[key d] items IH]; intros acc; simpl.
  { by intros ?%Exists_nil. }
  intros Hbad%Exists_cons.
  destruct (split2_cases ":" key) as [[Hwf ->]|[_ ->]]; [|done].
  simpl. case_decide; apply IH; tauto.
Qed.

Lemma get_actual_deployments_unfold soa_dir load service :
  get_actual_deployments soa_dir load service =
  (if decide (load service soa_dir = [])
   then [Stderr (not_deployed_warning service)] else [],
   read_deployments service (load service soa_dir) ∅).
Proof.
  unfold get_actual_deployments.
  case_decide; by destruct (read_deployments _ _ _).
Qed.

Lemma entries_for_matching service ns items :
  entries_for service ns (filter (λ kv, service_of kv.1 = service) items)
  = entries_for service ns items.
Proof.
  unfold entries_for. rewrite list_filter_filter.
  apply list_filter_iff. tauto.
Qed.

(** C4: reading a record whose keys each hold one colon succeeds; under a
    key of the mapping stands the version of the last entry of the queried
    service that ends under that key, so an entry of another service never
    shows (the mapping is that of the record cut down to the queried
    service), and every entry of the queried service has its key in the
    mapping.  The version is what follows the last dash of the image
    reference, or the whole reference when it holds no dash. *)
Theorem get_actual_deployments_entries
    (soa_dir : string) (load : string → string → list (string * deployment))
    (service : string) :
  Forall (λ kv, well_formed_key kv.1) (load service soa_dir) →
  ∃ actual,
    (get_actual_deployments soa_dir load service).2 = Ok actual
    ∧ (∀ ns, actual !! ns =
             entry_version <$> last (entries_for service ns (load service soa_dir)))
    ∧ (∀ ns sha, actual !! ns = Some sha →
         ∃ key d, (key, d) ∈ load service soa_dir
                  ∧ service_of key = service
                  ∧ PyStr.replace_first "paasta-" "" (namespace_of key) = ns
                  ∧ sha = image_sha (docker_image d))
    ∧ (∀ key d, (key, d) ∈ load service soa_dir → service_of key = service →
         is_Some (actual !! PyStr.replace_first "paasta-" "" (namespace_of key)))
    ∧ read_deployments service
        (filter (λ kv, service_of kv.1 = service) (load service soa_dir)) ∅
      = Ok actual
    ∧ (∀ value,
         (PyStr.count "-" value = 0 → image_sha value = value)
         ∧ (PyStr.count "-" value ≠ 0 →
            ∃ pre, value = pre +:+ "-" +:+ image_sha value
                   ∧ PyStr.count "-" (image_sha value) = 0)).
Proof.
  intros Hwf. rewrite get_actual_deployments_unfold. simpl.
  destruct (read_deployments_lookup service _ ∅ Hwf) as (actual & Hrun & Hlookup).
  assert (∀ ns, actual !! ns =
    entry_version <$> last (entries_for service ns (load service soa_dir)))
    as Hlast.
  { intros ns. rewrite Hlookup.
    destruct (last _); [done|]. apply lookup_empty. }
  exists actual. split_and!; [done|done|..].
  - intros ns sha. rewrite Hlast.
    destruct (last _) as [[key d]|] eqn:Hl; [|done].
    intros [= <-]. exists key, d.
    apply last_Some_elem_of, list_elem_of_filter in Hl as [[? ?] ?]. done.
  - intros key d Hin Hsvc. rewrite Hlast.
    destruct (last _) eqn:Hl; [by eexists|].
    apply last_None in Hl.
    assert ((key, d) ∈ entries_for service
              (PyStr.replace_first "paasta-" "" (namespace_of key))
              (load service soa_dir)) as Hmem.
    { apply list_elem_of_filter. done. }
    rewrite Hl in Hmem. by apply elem_of_nil in Hmem.
  - assert (Forall (λ kv, well_formed_key kv.1)
      (filter (λ kv, service_of kv.1 = service) (load service soa_dir))) as Hwf'.
    { apply Forall_forall. intros kv [_ Hin]%list_elem_of_filter.
      revert kv Hin. by apply Forall_forall. }
    destruct (read_deployments_lookup service _ ∅ Hwf')
      as (actual' & -> & Hlookup').
    f_equal. apply map_eq. intros ns.
    by rewrite Hlookup', Hlookup, entries_for_matching.
  - intros value. split.
    + apply image_sha_no_dash.
    + apply image_sha_after_last_dash.
Qed.

Lemma get_actual_deployments_entries_witness :
  Forall (λ kv, well_formed_key kv.1) Sample.record
  ∧ ∃ actual,
      (get_actual_deployments "/nail/etc/services" (λ _ _, Sample.record)
         "myservice").2 = Ok actual
      ∧ actual !! "main" = Some "a1b2c3d4".
Proof.
  split; [solve_Forall|].
  destruct (get_actual_deployments_entries "/nail/etc/services"
              (λ _ _, Sample.record) "myservice")
    as (actual & Hrun & Hlast & _); [solve_Forall|].
  exists actual. split; [exact Hrun|]. rewrite Hlast. reflexivity.
Defined.

(** C5 as the specification states it fails: a namespace that holds
    [paasta-] but does not start with it is not kept unchanged. *)
Lemma paasta_removed_inside_namespace :
  PyStr.startswith "paasta-" "dev-paasta-main" = false
  ∧ ∃ actual,
      (get_actual_deployments "/nail/etc/services"
         (λ _ _, [("myservice:dev-paasta-main",
                   {| docker_image := "services-myservice-a1b2c3d4" |})])
         "myservice").2 = Ok actual
      ∧ actual !! "dev-paasta-main" = None
      ∧ actual !! "dev-main" = Some "a1b2c3d4".
Proof.
  split; [reflexivity|].
  eexists. split; [reflexivity|]. split; reflexivity.
Qed.

(** C5, amended: the keys of the mapping are the namespaces of the entries
    of the queried service with the leftmost [paasta-] removed, wherever it
    stands: a namespace that starts with it loses that prefix, one that does
    not hold it is kept unchanged; the key myservice:paasta-main with image
    services-myservice-a1b2c3d4 gives the mapping of main to a1b2c3d4. *)
Theorem actual_deployments_keys
    (soa_dir : string) (load : string → string → list (string * deployment))
    (service : string) :
  (Forall (λ kv, well_formed_key kv.1) (load service soa_dir) →
   ∃ actual,
     (get_actual_deployments soa_dir load service).2 = Ok actual
     ∧ ∀ k, is_Some (actual !! k) ↔
            (∃ key d, (key, d) ∈ load service soa_dir
                      ∧ service_of key = service
                      ∧ k = PyStr.replace_first "paasta-" "" (namespace_of key)))
  ∧ (∀ rest, PyStr.replace_first "paasta-" "" ("paasta-" +:+ rest) = rest)
  ∧ (∀ ns, PyStr.contains "paasta-" ns = false →
           PyStr.replace_first "paasta-" "" ns = ns)
  ∧ (∀ ns, PyStr.contains "paasta-" ns = true →
           ∃ pre post,
             ns = pre +:+ "paasta-" +:+ post
             ∧ PyStr.replace_first "paasta-" "" ns = pre +:+ post
             ∧ PyStr.contains "paasta-" (pre +:+ "paasta") = false)
  ∧ (get_actual_deployments soa_dir (λ _ _, Sample.record) "myservice").2
    = Ok {["main" := "a1b2c3d4"]}.
Proof.
  split_and!.
  - intros Hwf. rewrite get_actual_deployments_unfold. simpl.
    destruct (read_deployments_lookup service _ ∅ Hwf)
      as (actual & Hrun & Hlookup).
    exists actual. split; [done|]. intros k. rewrite Hlookup. split.
    + destruct (last _) as [[key d]|] eqn:Hl.
      * intros _. exists key, d.
        apply last_Some_elem_of, list_elem_of_filter in Hl as [[? ?] ?]. done.
      * rewrite lookup_empty. by intros [? ?].
    + intros (key & d & Hin & Hsvc & ->).
      destruct (last _) eqn:Hl; [by eexists|].
      apply last_None in Hl.
      assert ((key, d) ∈ entries_for service
                (PyStr.replace_first "paasta-" "" (namespace_of key))
                (load service soa_dir)) as Hmem.
      { apply list_elem_of_filter. done. }
      rewrite Hl in Hmem. by apply elem_of_nil in Hmem.
  - done.
  - intros ns. apply replace_first_absent.
  - intros ns Hns.
    destruct (replace_first_leftmost "paasta-" "" ns) as (pre & post & ? & ? & ?);
      [done..|].
    exists pre, post. done.
  - rewrite get_actual_deployments_unfold. reflexivity.
Qed.

Lemma actual_deployments_keys_witness :
  ∃ actual,
    (get_actual_deployments "/nail/etc/services"
       (λ _ _, [("myservice:paasta-norcal-prod.main",
                 {| docker_image := "services-myservice-a1b2c3d4" |});
                ("other:paasta-norcal-prod.main",
                 {| docker_image := "services-other-ffff0000" |})])
       "myservice").2 = Ok actual
    ∧ is_Some (actual !! "norcal-prod.main").
Proof.
  destruct (actual_deployments_keys "/nail/etc/services"
       (λ _ _, [("myservice:paasta-norcal-prod.main",
                 {| docker_image := "services-myservice-a1b2c3d4" |});
                ("other:paasta-norcal-prod.main",
                 {| docker_image := "services-other-ffff0000" |})])
       "myservice") as [Hkeys _].
  destruct Hkeys as (actual & Hrun & Hdom); [solve_Forall|].
  exists actual. split; [exact Hrun|]. apply Hdom.
  eexists _, _. split; [apply list_elem_of_here|]. split; reflexivity.
Defined.

(** ** Loops that print *)

Lemma io_bind_ok {A B} (out : list event) (a : A) (k : A → io B) :
  ((out, Ok a) : io A) ≫= k = (out ++ (k a).1, (k a).2).
Proof. unfold mbind, io_bind, bind. by destruct (k a). Qed.

Lemma io_bind_raise {A B} (out : list event) e (k : A → io B) :
  ((out, Raise e) : io A) ≫= k = (out, Raise e).
Proof. done. Qed.

Lemma for_each_cons {A} (x : A) l (body : A → io unit) :
  for_each (x :: l) body = body x ≫= λ _, for_each l body.
Proof. done. Qed.

Lemma for_each_ok {A} (l : list A) (body : A → io unit)
    (out : A → list event) :
  Forall (λ x, body x = (out x, Ok tt)) l →
  for_each l body = (l ≫= out, Ok tt).
Proof.
  induction 1 as [|x l Hx _ IH]; [done|].
  by rewrite for_each_cons, Hx, io_bind_ok, IH.
Qed.


Lemma for_each_not_ok {A} (l : list A) (body : A → io unit) :
  Exists (λ x, ∃ e, (body x).2 = Raise e) l →
  ∃ e, (for_each l body).2 = Raise e.
Proof.
  induction 1 as [x l (e & Hx)|x l _ IH].
  - rewrite for_each_cons. destruct (body x) as [out r]. simpl in Hx.
    subst r. by exists e.
  - rewrite for_each_cons. destruct (body x) as [out [[]|e]].
    + rewrite io_bind_ok. apply IH.
    + by exists e.
Qed.

Lemma for_each_print {A} (l : list A) (f : A → string) :
  for_each l (λ x, print (f x)) = ((λ x, Stdout (f x)) <$> l, Ok tt).
Proof.
  rewrite (for_each_ok l _ (λ x, [Stdout (f x)])).
  - by rewrite list_bind_singleton.
  - by apply Forall_forall.
Qed.

Lemma bind_filter {A B} (P : A → Prop) `{!∀ x, Decision (P x)}
    (f : A → list B) (l : list A) :
  l ≫= (λ x, if decide (P x) then f x else []) = filter P l ≫= f.
Proof.
  induction l as [|x l IH]; [done|].
  rewrite bind_cons, filter_cons, IH. by case_decide.
Qed.

(** ** The per-cluster report *)

Section Reporter.
Context (blue red : string → string).
Context (execute : remote_probe).
Context (service cluster : string) (actual : gmap string string).
Context (verbose : bool).

Local Abbreviation report_target' :=
  (report_target blue red execute service cluster actual verbose).
Local Abbreviation target_lines := (target_lines blue red cluster actual).
Local Abbreviation probe_returns :=
  (probe_returns execute service cluster actual verbose).

Lemma report_target_malformed target :
  ¬ well_formed_target target →
  report_target' target = ([], Raise ValueError).
Proof.
  intros Hbad. unfold report_target. by rewrite (split2_raise _ _ Hbad).
Qed.

Lemma report_target_other_cluster target :
  well_formed_target target → cluster_of target ≠ cluster →
  report_target' target = ([], Ok tt).
Proof.
  intros Hwf Hother. unfold report_target. rewrite (split2_ok _ _ Hwf).
  unfold lift. rewrite io_bind_ok. simpl. fold (cluster_of target).
  by rewrite decide_True.
Qed.

Lemma report_target_not_deployed target :
  well_formed_target target → cluster_of target = cluster →
  actual !! target = None →
  report_target' target
  = (render blue red (instance_of target) NotDeployed, Ok tt).
Proof.
  intros Hwf Hcluster Hnone. unfold report_target. rewrite (split2_ok _ _ Hwf).
  unfold lift. rewrite io_bind_ok. simpl. fold (cluster_of target).
  rewrite decide_False by naive_solver.
  unfold instance_status. rewrite Hnone. done.
Qed.

Lemma report_target_deployed target sha text :
  well_formed_target target → cluster_of target = cluster →
  actual !! target = Some sha →
  execute "status" cluster service (instance_of target) verbose = Ok text →
  report_target' target
  = (render blue red (instance_of target)
       (Deployed (PyStr.slice_to 8 sha) text), Ok tt).
Proof.
  intros Hwf Hcluster Hsome Hprobe. unfold report_target.
  rewrite (split2_ok _ _ Hwf).
  unfold lift. rewrite io_bind_ok. simpl. fold (cluster_of target).
  rewrite decide_False by naive_solver.
  unfold instance_status. rewrite Hsome. fold (instance_of target).
  rewrite Hprobe. unfold lift. rewrite io_bind_ok. simpl.
  unfold print_status_text. rewrite for_each_print. done.
Qed.


Lemma report_target_returns probe target :
  well_formed_target target → probe_returns probe target →
  report_target' target = (target_lines probe target, Ok tt).
Proof.
  intros Hwf Hprobe. unfold target_lines, classify.
  destruct (decide (cluster_of target = cluster)) as [Hc|Hc].
  - destruct (actual !! target) as [sha|] eqn:Hsha.
    + apply report_target_deployed; [done..|]. apply Hprobe; [done|by eexists].
    + by apply report_target_not_deployed.
  - by apply report_target_other_cluster.
Qed.

Lemma report_status_for_cluster_unfold targets :
  report_status_for_cluster blue red execute service cluster targets actual
    verbose
  = ([Stdout ""; Stdout ("cluster: " +:+ cluster)]
       ++ (for_each targets report_target').1,
     (for_each targets report_target').2).
Proof.
  unfold report_status_for_cluster, print.
  by rewrite !io_bind_ok.
Qed.

Lemma report_status_for_cluster_returns probe targets :
  Forall well_formed_target targets →
  Forall (probe_returns probe) targets →
  report_status_for_cluster blue red execute service cluster targets actual
    verbose
  = (cluster_report blue red (classify actual probe) cluster targets, Ok tt).
Proof.
  intros Hwf Hprobe. rewrite report_status_for_cluster_unfold.
  rewrite (for_each_ok _ _ (target_lines probe)).
  - simpl. unfold cluster_report, target_lines, cluster_targets.
    by rewrite bind_filter.
  - rewrite Forall_forall in Hwf, Hprobe. apply Forall_forall.
    intros target Hin. apply report_target_returns; auto.
Qed.


Lemma report_status_for_cluster_malformed targets :
  Exists (λ target, ¬ well_formed_target target) targets →
  ∃ e, (report_status_for_cluster blue red execute service cluster targets
          actual verbose).2 = Raise e.
Proof.
  intros Hbad. rewrite report_status_for_cluster_unfold. simpl.
  apply for_each_not_ok. eapply Exists_impl; [exact Hbad|].
  intros target Ht. exists ValueError. by rewrite report_target_malformed.
Qed.

End Reporter.

(** ** The whole report *)

Lemma deployed_clusters_loop_raise targets actual seen :
  Exists (λ target, ¬ well_formed_target target) targets →
  deployed_clusters_loop targets actual seen = Raise ValueError.
Proof.
  revert seen. induction targets as [|t targets IH]; intros seen; simpl.
  { by intros ?%Exists_nil. }
  intros Hbad%Exists_cons.
  destruct (split2_cases "." t) as [[Hwf ->]|[_ ->]]; [|done].
  simpl. repeat case_bool_decide; apply IH; tauto.
Qed.

Lemma list_deployed_clusters_cases targets actual :
  (Forall well_formed_target targets
   ∧ list_deployed_clusters targets actual
     = Ok (deployed_clusters_spec targets actual))
  ∨ (Exists (λ target, ¬ well_formed_target target) targets
     ∧ list_deployed_clusters targets actual = Raise ValueError).
Proof.
  destruct (decide (Forall well_formed_target targets)) as [Hwf|Hbad].
  - left. split; [done|]. by apply list_deployed_clusters_ok.
  - right. apply not_Forall_Exists in Hbad; [|apply _].
    split; [done|]. by apply deployed_clusters_loop_raise.
Qed.

Section Report.
Context (get_pipeline_url : string → string) (blue red : string → string).
Context (execute : remote_probe).
Context (service : string) (actual : gmap string string).
Context (cluster_filter : option (list string)) (verbose : bool).

Lemma report_status_malformed targets :
  Exists (λ target, ¬ well_formed_target target) targets →
  report_status get_pipeline_url blue red execute service targets actual
    cluster_filter verbose
  = ([Stdout ("Pipeline: " +:+ get_pipeline_url service)], Raise ValueError).
Proof.
  intros Hbad. unfold report_status, print, lift.
  rewrite io_bind_ok.
  unfold list_deployed_clusters. rewrite deployed_clusters_loop_raise by done.
  done.
Qed.

Lemma report_status_returns (probe : string → string → string) targets :
  Forall well_formed_target targets →
  (∀ cluster instance,
     execute "status" cluster service instance verbose
     = Ok (probe cluster instance)) →
  report_status get_pipeline_url blue red execute service targets actual
    cluster_filter verbose
  = ([Stdout ("Pipeline: " +:+ get_pipeline_url service)]
     ++ (cluster ← reported_clusters cluster_filter
                      (deployed_clusters_spec targets actual);
         cluster_report blue red (classify actual (probe cluster))
           cluster targets)
     ++ [Stdout (report_bogus_filters cluster_filter
                   (deployed_clusters_spec targets actual))],
     Ok tt).
Proof.
  intros Hwf Hprobe. unfold report_status, print, lift.
  rewrite io_bind_ok, list_deployed_clusters_ok by done.
  rewrite io_bind_ok.
  rewrite (for_each_ok _ _
    (λ cluster, if decide (in_filter cluster_filter cluster = true)
                then cluster_report blue red (classify actual (probe cluster))
                       cluster targets
                else [])).
  - rewrite io_bind_ok. simpl. by rewrite bind_filter.
  - apply Forall_forall. intros cluster _.
    destruct (in_filter cluster_filter cluster) eqn:Hin.
    + rewrite decide_True by done.
      apply report_status_for_cluster_returns; [done|].
      apply Forall_forall. intros target _ _ _. apply Hprobe.
    + by rewrite decide_False.
Qed.

End Report.

(** C3 as the specification states it fails twice: the version shown is cut
    to eight characters, and the per-cluster report has a line only for the
    targets of its own cluster. *)
Lemma report_shows_cut_version_for_own_cluster :
  Sample.long_actual !! "norcal-prod.main" = Some "a1b2c3d4e5f60718"
  ∧ report_status_for_cluster Sample.blue Sample.red Sample.probe
      "myservice" "norcal-prod" Sample.targets Sample.long_actual false
    = ([Stdout ""; Stdout "cluster: norcal-prod";
        Stdout "  instance: [blue]main"; Stdout "    Git sha:    a1b2c3d4";
        Stdout "    Marathon: up"], Ok tt)
  ∧ (report_status_for_cluster Sample.blue Sample.red Sample.probe
       "myservice" "norcal-prod" Sample.targets Sample.long_actual false).1
    ≠ [Stdout ""; Stdout "cluster: norcal-prod"]
      ++ (target ← Sample.targets;
          render Sample.blue Sample.red (instance_of target)
            (classify_spec Sample.long_actual (λ _, "Marathon: up") target)).
Proof. split_and!; [reflexivity|reflexivity|discriminate]. Qed.

(** C3, amended: for targets that each hold one dot and probes that return,
    the per-cluster report writes, after the cluster's heading, one status
    line per target of that cluster, in input order: deployed with the first
    eight characters of the mapping's value as version when the target is a
    key of the mapping, not deployed otherwise. *)
Theorem report_status_for_cluster_lines
    (blue red : string → string)
    (execute : remote_probe)
    (service cluster : string) (targets : list string)
    (actual : gmap string string) (verbose : bool)
    (probe : string → string) :
  Forall well_formed_target targets →
  Forall (probe_returns execute service cluster actual verbose probe) targets →
  report_status_for_cluster blue red execute service cluster targets actual
    verbose
  = ([Stdout ""; Stdout ("cluster: " +:+ cluster)]
     ++ (target ← filter (λ target, cluster_of target = cluster) targets;
         render blue red (instance_of target)
           match actual !! target with
           | Some sha => Deployed (PyStr.take 8 sha) (probe (instance_of target))
           | None => NotDeployed
           end),
     Ok tt).
Proof. apply report_status_for_cluster_returns. Qed.

Lemma report_status_for_cluster_lines_witness :
  Forall well_formed_target Sample.targets
  ∧ Forall (probe_returns Sample.probe "myservice" "norcal-prod"
              Sample.long_actual false (λ _, "Marathon: up")) Sample.targets
  ∧ Sample.probe "status" "norcal-prod" "myservice" "main" false
    = Ok "Marathon: up"
  ∧ Sample.long_actual !! "norcal-prod.main" = Some "a1b2c3d4e5f60718"
  ∧ report_status_for_cluster Sample.blue Sample.red Sample.probe
      "myservice" "norcal-prod" Sample.targets Sample.long_actual false
    = ([Stdout ""; Stdout "cluster: norcal-prod";
        Stdout "  instance: [blue]main"; Stdout "    Git sha:    a1b2c3d4";
        Stdout "    Marathon: up"], Ok tt).
Proof.
  assert (Forall well_formed_target Sample.targets) as Hwf by solve_Forall.
  assert (Forall (probe_returns Sample.probe "myservice" "norcal-prod"
                    Sample.long_actual false (λ _, "Marathon: up"))
            Sample.targets) as Hprobe.
  { repeat first [apply Forall_nil_2
                 | apply Forall_cons_2; [intros ? ?; reflexivity|]]. }
  split_and!; [exact Hwf|exact Hprobe|reflexivity|reflexivity|].
  rewrite (report_status_for_cluster_lines Sample.blue Sample.red Sample.probe
             "myservice" "norcal-prod" Sample.targets Sample.long_actual false
             (λ _, "Marathon: up") Hwf Hprobe).
  reflexivity.
Defined.




(** C10: [list_deployed_clusters] and the per-cluster report split every
    target before they look at the mapping or at the cluster: the first
    returns exactly when every target holds one dot and raises otherwise,
    the second cannot end well with a malformed target among its targets,
    whatever the mapping and the cluster, and the whole report then ends
    with the exception right after its pipeline line, whatever the filter. *)
Theorem malformed_target_fails_report
    (get_pipeline_url : string → string) (blue red : string → string)
    (execute : remote_probe)
    (service : string) (targets : list string) (actual : gmap string string)
    (cluster_filter : option (list string)) (verbose : bool) :
  (list_deployed_clusters targets actual = Raise ValueError ↔
   Exists (λ target, PyStr.count "." target ≠ 1) targets)
  ∧ ((∃ clusters, list_deployed_clusters targets actual = Ok clusters) ↔
     Forall (λ target, PyStr.count "." target = 1) targets)
  ∧ (Exists (λ target, PyStr.count "." target ≠ 1) targets →
     ∀ cluster, ∃ e,
       (report_status_for_cluster blue red execute service cluster targets
          actual verbose).2 = Raise e)
  ∧ (∀ cluster probe,
       Forall (probe_returns execute service cluster actual verbose probe)
         targets →
       ((report_status_for_cluster blue red execute service cluster targets
           actual verbose).2 = Ok tt ↔
        Forall (λ target, PyStr.count "." target = 1) targets))
  ∧ (Exists (λ target, PyStr.count "." target ≠ 1) targets →
     report_status get_pipeline_url blue red execute service targets actual
       cluster_filter verbose
     = ([Stdout ("Pipeline: " +:+ get_pipeline_url service)],
        Raise ValueError)).
Proof.
  split_and!.
  - destruct (list_deployed_clusters_cases targets actual)
      as [[Hwf ->]|[Hbad ->]]; split; try done.
    intros Hbad. apply Exists_not_Forall in Hbad. by destruct Hbad.
  - destruct (list_deployed_clusters_cases targets actual)
      as [[Hwf ->]|[Hbad ->]]; split; try done.
    + eauto.
    + by intros [? ?].
    + intros Hwf. apply Exists_not_Forall in Hbad. by destruct Hbad.
  - intros Hbad cluster. by apply report_status_for_cluster_malformed.
  - intros cluster probe Hprobe. split.
    + intros Hok.
      destruct (decide (Forall well_formed_target targets)) as [|Hbad]; [done|].
      apply not_Forall_Exists in Hbad; [|apply _].
      destruct (report_status_for_cluster_malformed blue red execute service
                  cluster actual verbose targets Hbad) as [e He].
      congruence.
    + intros Hwf.
      by rewrite (report_status_for_cluster_returns _ _ _ _ _ _ _ probe).
  - apply report_status_malformed.
Qed.

(** ** No deployments yet *)

(** C7: reading an empty record succeeds with the empty mapping and a
    warning on the standard error; and whenever the mapping read is empty,
    whatever the pipeline of [deploy.yaml] and the cluster filter,
    [paasta_status] writes nothing but the no-deployments message after what
    the reading wrote: the planner and the per-cluster report do not run. *)
Theorem no_deployments_outcome
    (soa_dir : string) (non_deploy : list string) (yaml_missing : string)
    (load : string → string → list (string * deployment))
    (read_deploy : string → option deploy_info)
    (path_join : string → string → string → string)
    (figure_out_service_name : args → string)
    (get_pipeline_url : string → string) (x_mark : string)
    (blue red cyan : string → string)
    (execute : remote_probe)
    (a : args) :
  (load (figure_out_service_name a) soa_dir = [] →
   get_actual_deployments soa_dir load (figure_out_service_name a)
   = ([Stderr (not_deployed_warning (figure_out_service_name a))], Ok ∅))
  ∧ (∀ info written,
       read_deploy
         (path_join soa_dir (figure_out_service_name a) "deploy.yaml")
       = Some info →
       get_actual_deployments soa_dir load (figure_out_service_name a)
       = (written, Ok ∅) →
       paasta_status soa_dir non_deploy yaml_missing load read_deploy
         path_join figure_out_service_name get_pipeline_url x_mark
         blue red cyan execute a
       = (written
          ++ [Stdout (missing_deployments_message x_mark cyan
                        (figure_out_service_name a))],
          Ok tt)).
Proof.
  split.
  - intros Hempty. rewrite get_actual_deployments_unfold, Hempty. done.
  - intros info written Hread Hactual. unfold paasta_status.
    rewrite Hactual, io_bind_ok. unfold get_deploy_info. rewrite Hread.
    simpl. by rewrite decide_False by (by intros ?).
Qed.

Lemma no_deployments_outcome_witness :
  paasta_status "/nail/etc/services" Sample.non_deploy "deploy.yaml missing"
    (λ _ _, []) (λ _, Some Sample.info)
    (λ dir service file, dir +:+ "/" +:+ service +:+ "/" +:+ file)
    (λ _, "myservice") Sample.pipeline_url "x" Sample.blue Sample.red
    Sample.cyan Sample.probe Sample.arguments
  = ([Stderr (not_deployed_warning "myservice");
      Stdout (missing_deployments_message "x" Sample.cyan "myservice")],
     Ok tt).
Proof.
  destruct (no_deployments_outcome "/nail/etc/services" Sample.non_deploy
    "deploy.yaml missing" (λ _ _, []) (λ _, Some Sample.info)
    (λ dir service file, dir +:+ "/" +:+ service +:+ "/" +:+ file)
    (λ _, "myservice") Sample.pipeline_url "x" Sample.blue Sample.red
    Sample.cyan Sample.probe Sample.arguments) as [Hread Hstatus].
  rewrite (Hstatus Sample.info [Stderr (not_deployed_warning "myservice")]).
  - reflexivity.
  - reflexivity.
  - apply Hread. reflexivity.
Defined.

(** * Further properties of the program *)

(** ** The planner's output *)

Lemma get_planned_deployments_cases non_deploy info :
  (Forall well_formed_target (deploy_steps non_deploy info)
   ∧ get_planned_deployments non_deploy info
     = Ok (planned_targets_spec (deploy_steps non_deploy info)))
  ∨ (Exists (λ step, ¬ well_formed_target step) (deploy_steps non_deploy info)
     ∧ get_planned_deployments non_deploy info = Raise ValueError).
Proof.
  destruct (decide (Forall well_formed_target (deploy_steps non_deploy info)))
    as [Hwf|Hbad].
  - left. split; [done|]. by apply get_planned_deployments_ok.
  - right. apply not_Forall_Exists in Hbad; [|apply _].
    split; [done|]. by apply get_planned_deployments_raise.
Qed.

Lemma planned_targets_spec_idempotent steps :
  planned_targets_spec (planned_targets_spec steps) = planned_targets_spec steps.
Proof.
  unfold planned_targets_spec at 1. rewrite planned_targets_spec_clusters.
  apply Forall_bind_ext, Forall_forall. intros c _.
  apply cluster_targets_planned.
Qed.

Lemma deploy_steps_pipeline_of non_deploy targets :
  Forall (λ target, target ∉ non_deploy) targets →
  deploy_steps non_deploy (pipeline_of targets) = targets.
Proof.
  intros Hnd. unfold deploy_steps, pipeline_of. simpl.
  rewrite <- list_fmap_compose, list_fmap_id. by apply filter_all.
Qed.

Lemma planned_targets_fit non_deploy info targets :
  get_planned_deployments non_deploy info = Ok targets →
  targets = planned_targets_spec (deploy_steps non_deploy info)
  ∧ Forall well_formed_target targets
  ∧ Forall (λ target, target ∉ non_deploy) targets.
Proof.
  destruct (get_planned_deployments_cases non_deploy info)
    as [[Hwf ->]|[_ ->]]; [|done].
  intros [= <-]. split_and!; [done|..].
  - by rewrite planned_targets_spec_perm.
  - rewrite planned_targets_spec_perm. apply Forall_forall.
    by intros step [? _]%list_elem_of_filter.
Qed.

(** X1: what the planner yields is fit for the reconciler: every target
    holds exactly one dot and none is a non-deploy step, so
    [list_deployed_clusters] returns on it, whatever the mapping, and the
    deployed clusters come in the order in which the clusters first appear
    in the raw pipeline. *)
Theorem planned_targets_reconcile
    (non_deploy : list string) (info : deploy_info) (targets : list string)
    (actual : gmap string string) :
  get_planned_deployments non_deploy info = Ok targets →
  Forall well_formed_target targets
  ∧ Forall (λ target, target ∉ non_deploy) targets
  ∧ ∃ clusters,
      list_deployed_clusters targets actual = Ok clusters
      ∧ clusters `sublist_of`
          first_occurrences (cluster_of <$> deploy_steps non_deploy info).
Proof.
  intros (-> & Hwf & Hnd)%planned_targets_fit.
  split_and!; [done..|].
  exists (deployed_clusters_spec
            (planned_targets_spec (deploy_steps non_deploy info)) actual).
  split; [by apply list_deployed_clusters_ok|].
  rewrite deployed_clusters_planned, planned_targets_spec_clusters.
  apply sublist_filter.
Qed.

Lemma planned_targets_reconcile_witness :
  Forall well_formed_target Sample.targets
  ∧ Forall (λ target, target ∉ Sample.non_deploy) Sample.targets
  ∧ ∃ clusters,
      list_deployed_clusters Sample.targets Sample.actual = Ok clusters
      ∧ clusters `sublist_of`
          first_occurrences
            (cluster_of <$> deploy_steps Sample.non_deploy Sample.info).
Proof.
  apply (planned_targets_reconcile Sample.non_deploy Sample.info).
  reflexivity.
Defined.

(** X2: planning is idempotent: fed back as a raw pipeline, the targets the
    planner yielded come out unchanged. *)
Theorem get_planned_deployments_idempotent
    (non_deploy : list string) (info : deploy_info) (targets : list string) :
  get_planned_deployments non_deploy info = Ok targets →
  get_planned_deployments non_deploy (pipeline_of targets) = Ok targets.
Proof.
  intros (-> & Hwf & Hnd)%planned_targets_fit.
  rewrite get_planned_deployments_ok;
    rewrite deploy_steps_pipeline_of by done; [|done].
  by rewrite planned_targets_spec_idempotent.
Qed.

Lemma get_planned_deployments_idempotent_witness :
  get_planned_deployments ["itest"]
    (pipeline_of ["b.web"; "b.web"; "b.canary"; "a.main"])
  = Ok ["b.web"; "b.web"; "b.canary"; "a.main"].
Proof.
  apply (get_planned_deployments_idempotent ["itest"]
           (pipeline_of ["itest"; "b.web"; "a.main"; "b.web"; "b.canary"])).
  reflexivity.
Defined.

(** ** The reader's failures and its empty results *)

Lemma read_deployments_cases service items :
  (Forall (λ kv, well_formed_key kv.1) items
   ∧ ∃ actual,
       read_deployments service items ∅ = Ok actual
       ∧ ∀ ns, actual !! ns
               = entry_version <$> last (entries_for service ns items))
  ∨ (Exists (λ kv, ¬ well_formed_key kv.1) items
     ∧ read_deployments service items ∅ = Raise ValueError).
Proof.
  destruct (decide (Forall (λ kv, well_formed_key kv.1) items)) as [Hwf|Hbad].
  - left. split; [done|].
    destruct (read_deployments_lookup service items ∅ Hwf)
      as (actual & Hrun & Hlookup).
    exists actual. split; [done|]. intros ns. rewrite Hlookup.
    destruct (last _); [done|]. apply lookup_empty.
  - right. apply not_Forall_Exists in Hbad; [|apply _].
    split; [done|]. by apply read_deployments_raise.
Qed.

Lemma paasta_status_reader_raises
    soa_dir non_deploy yaml_missing load read_deploy path_join
    figure_out_service_name get_pipeline_url x_mark blue red cyan execute
    a written e :
  get_actual_deployments soa_dir load (figure_out_service_name a)
  = (written, Raise e) →
  paasta_status soa_dir non_deploy yaml_missing load read_deploy path_join
    figure_out_service_name get_pipeline_url x_mark blue red cyan execute a
  = (written, Raise e).
Proof. intros Hread. unfold paasta_status. by rewrite Hread. Qed.

(** X3: the reader raises exactly when some key of the record, of whatever
    service, does not hold exactly one colon; [paasta_status] then ends with
    that exception before it looks for deploy.yaml, having written
    nothing. *)
Theorem get_actual_deployments_malformed_key
    (soa_dir : string) (non_deploy : list string) (yaml_missing : string)
    (load : string → string → list (string * deployment))
    (read_deploy : string → option deploy_info)
    (path_join : string → string → string → string)
    (figure_out_service_name : args → string)
    (get_pipeline_url : string → string) (x_mark : string)
    (blue red cyan : string → string) (execute : remote_probe) (a : args) :
  ((get_actual_deployments soa_dir load (figure_out_service_name a)).2
   = Raise ValueError ↔
   Exists (λ kv, PyStr.count ":" kv.1 ≠ 1)
     (load (figure_out_service_name a) soa_dir))
  ∧ (Exists (λ kv, PyStr.count ":" kv.1 ≠ 1)
       (load (figure_out_service_name a) soa_dir) →
     paasta_status soa_dir non_deploy yaml_missing load read_deploy path_join
       figure_out_service_name get_pipeline_url x_mark blue red cyan execute a
     = ([], Raise ValueError)).
Proof.
  set (service := figure_out_service_name a).
  split.
  - rewrite get_actual_deployments_unfold. simpl.
    destruct (read_deployments_cases service (load service soa_dir))
      as [[Hwf (actual & -> & _)]|[Hbad ->]]; split; try done.
    intros Hbad. apply Exists_not_Forall in Hbad. by destruct Hbad.
  - intros Hbad. apply paasta_status_reader_raises.
    rewrite get_actual_deployments_unfold, read_deployments_raise by done.
    rewrite decide_False; [done|].
    intros Hnil. fold service in Hnil. rewrite Hnil in Hbad.
    by apply Exists_nil in Hbad.
Qed.

(** X4: for a record whose keys each hold one colon, the mapping read is
    empty exactly when no entry belongs to the queried service, while the
    warning is written exactly when the record itself is empty: a record
    that holds only other services is read silently into the empty
    mapping. *)
Theorem get_actual_deployments_empty
    (soa_dir : string) (load : string → string → list (string * deployment))
    (service : string) :
  Forall (λ kv, well_formed_key kv.1) (load service soa_dir) →
  ∃ actual,
    get_actual_deployments soa_dir load service
    = (if decide (load service soa_dir = [])
       then [Stderr (not_deployed_warning service)] else [],
       Ok actual)
    ∧ (actual = ∅ ↔
       Forall (λ kv, service_of kv.1 ≠ service) (load service soa_dir)).
Proof.
  intros Hwf. rewrite get_actual_deployments_unfold.
  destruct (read_deployments_cases service (load service soa_dir))
    as [[_ (actual & -> & Hlookup)]|[Hbad _]].
  - exists actual. split; [done|]. rewrite map_empty. split.
    + intros Hnone. apply Forall_forall. intros [key d] Hin Hsvc.
      specialize (Hnone (PyStr.replace_first "paasta-" "" (namespace_of key))).
      rewrite Hlookup in Hnone.
      destruct (last _) eqn:Hl; [done|]. apply last_None in Hl.
      assert ((key, d) ∈ entries_for service
                (PyStr.replace_first "paasta-" "" (namespace_of key))
                (load service soa_dir)) as Hmem.
      { apply list_elem_of_filter. done. }
      rewrite Hl in Hmem. by apply elem_of_nil in Hmem.
    + intros Hother ns. rewrite Hlookup.
      destruct (last _) as [kv|] eqn:Hl; [|done].
      apply last_Some_elem_of, list_elem_of_filter in Hl as [[Hsvc _] Hin].
      rewrite Forall_forall in Hother. by destruct (Hother kv Hin).
  - apply Exists_not_Forall in Hbad. by destruct Hbad.
Qed.

Lemma get_actual_deployments_empty_witness :
  ∃ actual,
    get_actual_deployments "/nail/etc/services"
      (λ _ _, [("other:paasta-norcal-prod.main",
                {| docker_image := "services-other-ffff0000" |})])
      "myservice"
    = ([], Ok actual)
    ∧ actual = ∅.
Proof.
  destruct (get_actual_deployments_empty "/nail/etc/services"
      (λ _ _, [("other:paasta-norcal-prod.main",
                {| docker_image := "services-other-ffff0000" |})])
      "myservice") as (actual & Hrun & Hempty); [solve_Forall|].
  exists actual. split; [exact Hrun|]. apply Hempty.
  apply Forall_cons_2; [discriminate|apply Forall_nil_2].
Defined.

(** ** The command as a whole *)

Section Command.
Context (soa_dir : string) (non_deploy : list string) (yaml_missing : string).
Context (load : string → string → list (string * deployment)).
Context (read_deploy : string → option deploy_info).
Context (path_join : string → string → string → string).
Context (figure_out_service_name : args → string).
Context (get_pipeline_url : string → string) (x_mark : string).
Context (blue red cyan : string → string) (execute : remote_probe).

Local Abbreviation paasta_status' :=
  (paasta_status soa_dir non_deploy yaml_missing load read_deploy path_join
     figure_out_service_name get_pipeline_url x_mark blue red cyan execute).
Local Abbreviation report_status' :=
  (report_status get_pipeline_url blue red execute).

Lemma paasta_status_deployed a written actual info :
  get_actual_deployments soa_dir load (figure_out_service_name a)
  = (written, Ok actual) →
  actual ≠ ∅ →
  read_deploy (path_join soa_dir (figure_out_service_name a) "deploy.yaml")
  = Some info →
  paasta_status' a
  = match get_planned_deployments non_deploy info with
    | Ok targets =>
        (written
         ++ (report_status' (figure_out_service_name a) targets actual
               (filter_of a) (arg_verbose a)).1,
         (report_status' (figure_out_service_name a) targets actual
            (filter_of a) (arg_verbose a)).2)
    | Raise e => (written, Raise e)
    end.
Proof.
  intros Hread Hne Hyaml. unfold paasta_status.
  rewrite Hread, io_bind_ok. unfold get_deploy_info. rewrite Hyaml. simpl.
  rewrite decide_True by done.
  destruct (get_planned_deployments non_deploy info) as [targets|e]; simpl.
  - unfold filter_of. destruct (report_status _ _ _ _ _ _ _ _ _). done.
  - by rewrite app_nil_r.
Qed.

End Command.

(** X5: when deploy.yaml cannot be read, [paasta_status] writes the
    deploy.yaml-missing message after what the reader wrote and exits with
    status 1, whether or not the service has deployments. *)
Theorem paasta_status_missing_deploy_yaml
    (soa_dir : string) (non_deploy : list string) (yaml_missing : string)
    (load : string → string → list (string * deployment))
    (read_deploy : string → option deploy_info)
    (path_join : string → string → string → string)
    (figure_out_service_name : args → string)
    (get_pipeline_url : string → string) (x_mark : string)
    (blue red cyan : string → string) (execute : remote_probe)
    (a : args) (written : list event) (actual : gmap string string) :
  get_actual_deployments soa_dir load (figure_out_service_name a)
  = (written, Ok actual) →
  read_deploy (path_join soa_dir (figure_out_service_name a) "deploy.yaml")
  = None →
  paasta_status soa_dir non_deploy yaml_missing load read_deploy path_join
    figure_out_service_name get_pipeline_url x_mark blue red cyan execute a
  = (written ++ [Stdout yaml_missing], Raise (SystemExit 1)).
Proof.
  intros Hread Hyaml. unfold paasta_status.
  rewrite Hread, io_bind_ok. unfold get_deploy_info. rewrite Hyaml. done.
Qed.

Lemma paasta_status_missing_deploy_yaml_witness :
  paasta_status "/nail/etc/services" Sample.non_deploy "deploy.yaml missing"
    (λ _ _, Sample.record) (λ _, None)
    (λ dir service file, dir +:+ "/" +:+ service +:+ "/" +:+ file)
    (λ _, "myservice") Sample.pipeline_url "x" Sample.blue Sample.red
    Sample.cyan Sample.probe Sample.arguments
  = ([Stdout "deploy.yaml missing"], Raise (SystemExit 1)).
Proof.
  apply (paasta_status_missing_deploy_yaml "/nail/etc/services"
    Sample.non_deploy "deploy.yaml missing" (λ _ _, Sample.record) (λ _, None)
    (λ dir service file, dir +:+ "/" +:+ service +:+ "/" +:+ file)
    (λ _, "myservice") Sample.pipeline_url "x" Sample.blue Sample.red
    Sample.cyan Sample.probe Sample.arguments [] {["main" := "a1b2c3d4"]}).
  - reflexivity.
  - reflexivity.
Defined.

(** X6: with deployments read, deploy.yaml present, deploy steps that each
    hold one dot and probes that return, [paasta_status] ends well and has
    written, after the reader's output, the pipeline line, one report for
    each deployed cluster the filter lets through, in the order in which the
    clusters first come up in deploy.yaml, and the bogus-filter line. *)
Theorem paasta_status_report
    (soa_dir : string) (non_deploy : list string) (yaml_missing : string)
    (load : string → string → list (string * deployment))
    (read_deploy : string → option deploy_info)
    (path_join : string → string → string → string)
    (figure_out_service_name : args → string)
    (get_pipeline_url : string → string) (x_mark : string)
    (blue red cyan : string → string) (execute : remote_probe)
    (a : args) (written : list event) (actual : gmap string string)
    (info : deploy_info) (probe : string → string → string) :
  get_actual_deployments soa_dir load (figure_out_service_name a)
  = (written, Ok actual) →
  actual ≠ ∅ →
  read_deploy (path_join soa_dir (figure_out_service_name a) "deploy.yaml")
  = Some info →
  Forall well_formed_target (deploy_steps non_deploy info) →
  (∀ cluster instance,
     execute "status" cluster (figure_out_service_name a) instance
       (arg_verbose a)
     = Ok (probe cluster instance)) →
  ∃ targets clusters,
    get_planned_deployments non_deploy info = Ok targets
    ∧ list_deployed_clusters targets actual = Ok clusters
    ∧ clusters `sublist_of`
        first_occurrences (cluster_of <$> deploy_steps non_deploy info)
    ∧ paasta_status soa_dir non_deploy yaml_missing load read_deploy
        path_join figure_out_service_name get_pipeline_url x_mark blue red
        cyan execute a
      = (written
         ++ [Stdout ("Pipeline: "
                       +:+ get_pipeline_url (figure_out_service_name a))]
         ++ (cluster ← filter (λ cluster, in_filter (filter_of a) cluster = true)
                          clusters;
             cluster_report blue red (classify actual (probe cluster))
               cluster targets)
         ++ [Stdout (report_bogus_filters (filter_of a) clusters)],
         Ok tt).
Proof.
  intros Hread Hne Hyaml Hwf Hprobe.
  pose proof (get_planned_deployments_ok non_deploy info Hwf) as Hplan.
  destruct (planned_targets_fit _ _ _ Hplan) as (_ & Hwf' & _).
  set (targets := planned_targets_spec (deploy_steps non_deploy info)) in *.
  exists targets, (deployed_clusters_spec targets actual). split_and!.
  - done.
  - by apply list_deployed_clusters_ok.
  - unfold targets.
    rewrite deployed_clusters_planned, planned_targets_spec_clusters.
    apply sublist_filter.
  - rewrite (paasta_status_deployed _ _ _ _ _ _ _ _ _ _ _ _ _ _ _ _ _
               Hread Hne Hyaml), Hplan.
    by rewrite (report_status_returns _ _ _ _ _ _ _ _ probe).
Qed.

Lemma paasta_status_report_witness :
  ∃ targets clusters,
    get_planned_deployments Sample.non_deploy Sample.info = Ok targets
    ∧ list_deployed_clusters targets Sample.actual = Ok clusters
    ∧ clusters = ["norcal-prod"]
    ∧ paasta_status "/nail/etc/services" Sample.non_deploy
        "deploy.yaml missing"
        (λ _ _, [("myservice:paasta-norcal-prod.main",
                  {| docker_image := "services-myservice-a1b2c3d4" |})])
        (λ _, Some Sample.info)
        (λ dir service file, dir +:+ "/" +:+ service +:+ "/" +:+ file)
        (λ _, "myservice") Sample.pipeline_url "x" Sample.blue Sample.red
        Sample.cyan Sample.probe Sample.arguments
      = ([Stdout "Pipeline: https://jenkins.yelpcorp.com/view/services-myservice";
          Stdout ""; Stdout "cluster: norcal-prod";
          Stdout "  instance: [blue]main"; Stdout "    Git sha:    a1b2c3d4";
          Stdout "    Marathon: up";
          Stdout (bogus_warning +:+ "bogus-cluster")], Ok tt).
Proof.
  destruct (paasta_status_report "/nail/etc/services" Sample.non_deploy
        "deploy.yaml missing"
        (λ _ _, [("myservice:paasta-norcal-prod.main",
                  {| docker_image := "services-myservice-a1b2c3d4" |})])
        (λ _, Some Sample.info)
        (λ dir service file, dir +:+ "/" +:+ service +:+ "/" +:+ file)
        (λ _, "myservice") Sample.pipeline_url "x" Sample.blue Sample.red
        Sample.cyan Sample.probe Sample.arguments [] Sample.actual Sample.info
        (λ _ _, "Marathon: up"))
    as (targets & clusters & Hplan & Hclusters & _ & Hstatus).
  - reflexivity.
  - intros Hempty. by apply (f_equal (λ m, m !! "norcal-prod.main")) in Hempty.
  - reflexivity.
  - solve_Forall.
  - reflexivity.
  - exists targets, clusters.
    assert (targets = Sample.targets) as Ht by (by injection Hplan).
    assert (clusters = ["norcal-prod"]) as Hc.
    { rewrite Ht in Hclusters. by injection Hclusters. }
    split_and!; [done..|].
    rewrite Hstatus, Ht, Hc. reflexivity.
Defined.

(** X7: with deployments read and deploy.yaml present, a deploy step that
    does not hold exactly one dot ends [paasta_status] with the exception
    before anything of the report is written, not even the pipeline line. *)
Theorem paasta_status_malformed_step
    (soa_dir : string) (non_deploy : list string) (yaml_missing : string)
    (load : string → string → list (string * deployment))
    (read_deploy : string → option deploy_info)
    (path_join : string → string → string → string)
    (figure_out_service_name : args → string)
    (get_pipeline_url : string → string) (x_mark : string)
    (blue red cyan : string → string) (execute : remote_probe)
    (a : args) (written : list event) (actual : gmap string string)
    (info : deploy_info) :
  get_actual_deployments soa_dir load (figure_out_service_name a)
  = (written, Ok actual) →
  actual ≠ ∅ →
  read_deploy (path_join soa_dir (figure_out_service_name a) "deploy.yaml")
  = Some info →
  Exists (λ step, PyStr.count "." step ≠ 1) (deploy_steps non_deploy info) →
  paasta_status soa_dir non_deploy yaml_missing load read_deploy path_join
    figure_out_service_name get_pipeline_url x_mark blue red cyan execute a
  = (written, Raise ValueError).
Proof.
  intros Hread Hne Hyaml Hbad.
  rewrite (paasta_status_deployed _ _ _ _ _ _ _ _ _ _ _ _ _ _ _ _ _
             Hread Hne Hyaml).
  by rewrite get_planned_deployments_raise.
Qed.

Lemma paasta_status_malformed_step_witness :
  paasta_status "/nail/etc/services" Sample.non_deploy "deploy.yaml missing"
    (λ _ _, [("myservice:paasta-norcal-prod.main",
              {| docker_image := "services-myservice-a1b2c3d4" |})])
    (λ _, Some (pipeline_of ["itest"; "norcal-prod.main"; "performance-check"]))
    (λ dir service file, dir +:+ "/" +:+ service +:+ "/" +:+ file)
    (λ _, "myservice") Sample.pipeline_url "x" Sample.blue Sample.red
    Sample.cyan Sample.probe Sample.arguments
  = ([], Raise ValueError).
Proof.
  apply (paasta_status_malformed_step "/nail/etc/services" Sample.non_deploy
    "deploy.yaml missing"
    (λ _ _, [("myservice:paasta-norcal-prod.main",
              {| docker_image := "services-myservice-a1b2c3d4" |})])
    (λ _, Some (pipeline_of ["itest"; "norcal-prod.main"; "performance-check"]))
    (λ dir service file, dir +:+ "/" +:+ service +:+ "/" +:+ file)
    (λ _, "myservice") Sample.pipeline_url "x" Sample.blue Sample.red
    Sample.cyan Sample.probe Sample.arguments [] Sample.actual
    (pipeline_of ["itest"; "norcal-prod.main"; "performance-check"])).
  - reflexivity.
  - intros Hempty. by apply (f_equal (λ m, m !! "norcal-prod.main")) in Hempty.
  - reflexivity.
  - apply Exists_cons_tl, Exists_cons_hd. discriminate.
Defined.

(** ** What the report depends on *)

Lemma for_each_ext {A} (l : list A) (f g : A → io unit) :
  Forall (λ x, f x = g x) l → for_each l f = for_each l g.
Proof.
  induction 1 as [|x l Hx _ IH]; [done|].
  by rewrite !for_each_cons, Hx, IH.
Qed.

Lemma deployed_clusters_loop_agree targets (actual actual' : gmap string string)
    seen :
  Forall (λ target, actual !! target = actual' !! target) targets →
  deployed_clusters_loop targets actual seen
  = deployed_clusters_loop targets actual' seen.
Proof.
  intros Hagree. revert seen.
  induction Hagree as [|t targets Ht _ IH]; intros seen; simpl; [done|].
  destruct (split2 "." t) as [[c i]|e]; simpl; [|done].
  rewrite Ht. repeat case_bool_decide; apply IH.
Qed.

Lemma report_target_agree blue red execute service cluster
    (actual actual' : gmap string string) verbose target :
  actual !! target = actual' !! target →
  report_target blue red execute service cluster actual verbose target
  = report_target blue red execute service cluster actual' verbose target.
Proof.
  intros Hagree. unfold report_target, instance_status. by rewrite Hagree.
Qed.

(** X8: the report shows nothing of a deployment that is not a target of
    the pipeline: two mappings that agree on every target give the same
    report, whatever else they hold. *)
Theorem report_status_ignores_unplanned
    (get_pipeline_url : string → string) (blue red : string → string)
    (execute : remote_probe) (service : string) (targets : list string)
    (actual actual' : gmap string string)
    (cluster_filter : option (list string)) (verbose : bool) :
  (∀ target, target ∈ targets → actual !! target = actual' !! target) →
  list_deployed_clusters targets actual = list_deployed_clusters targets actual'
  ∧ report_status get_pipeline_url blue red execute service targets actual
      cluster_filter verbose
    = report_status get_pipeline_url blue red execute service targets actual'
        cluster_filter verbose.
Proof.
  intros Hagree%Forall_forall.
  assert (list_deployed_clusters targets actual
          = list_deployed_clusters targets actual') as Hclusters.
  { by apply deployed_clusters_loop_agree. }
  split; [done|]. unfold report_status. rewrite Hclusters.
  destruct (list_deployed_clusters targets actual') as [clusters|e]; [|done].
  unfold lift, print. rewrite !io_bind_ok. simpl.
  rewrite (for_each_ext clusters _
    (λ cluster, if in_filter cluster_filter cluster
                then report_status_for_cluster blue red execute service
                       cluster targets actual' verbose
                else mret tt)); [done|].
  apply Forall_forall. intros cluster _.
  destruct (in_filter cluster_filter cluster); [|done].
  rewrite !report_status_for_cluster_unfold.
  rewrite (for_each_ext targets _
    (report_target blue red execute service cluster actual' verbose)); [done|].
  eapply Forall_impl; [exact Hagree|].
  intros target Ht. by apply report_target_agree.
Qed.

Lemma report_status_ignores_unplanned_witness :
  report_status Sample.pipeline_url Sample.blue Sample.red Sample.probe
    "myservice" Sample.targets Sample.actual None false
  = report_status Sample.pipeline_url Sample.blue Sample.red Sample.probe
      "myservice" Sample.targets
      (<["sfo-devc.canary" := "0badcafe"]> Sample.actual) None false.
Proof.
  apply (report_status_ignores_unplanned Sample.pipeline_url Sample.blue
           Sample.red Sample.probe "myservice" Sample.targets Sample.actual
           (<["sfo-devc.canary" := "0badcafe"]> Sample.actual) None false).
  intros target Hin. symmetry. apply lookup_insert_ne.
  intros <-. revert Hin. unfold Sample.targets.
  rewrite !elem_of_cons, elem_of_nil.
  intros [?|[?|[]]]; discriminate.
Defined.

(** ** Cluster headings *)

Lemma get_0_app a s t : String.get 0 (String a s +:+ t) = Some a.
Proof. done. Qed.

Lemma heading_not_in_render blue red instance line c :
  Stdout ("cluster: " +:+ c) ∉ render blue red instance line.
Proof.
  intros Hin. destruct line as [version text|]; simpl in Hin.
  - rewrite !elem_of_cons, list_elem_of_fmap in Hin.
    destruct Hin as [H|[H|(l & H & _)]]; discriminate H.
  - rewrite !elem_of_cons, elem_of_nil in Hin.
    destruct Hin as [H|[H|[]]]; discriminate H.
Qed.

Lemma heading_in_cluster_report blue red classify cluster targets c :
  Stdout ("cluster: " +:+ c) ∈ cluster_report blue red classify cluster targets
  ↔ c = cluster.
Proof.
  unfold cluster_report.
  rewrite elem_of_app, !elem_of_cons, elem_of_nil, list_elem_of_bind. split.
  - intros [[H|[H|[]]]|(target & Hin & _)].
    + discriminate H.
    + injection H as H. exact H.
    + by apply heading_not_in_render in Hin.
  - intros ->. left. right. by left.
Qed.

Lemma heading_not_bogus_line cluster_filter deployed c :
  Stdout ("cluster: " +:+ c)
  ≠ Stdout (report_bogus_filters cluster_filter deployed).
Proof.
  intros H. injection H as H. apply (f_equal (String.get 0)) in H.
  rewrite get_0_app in H. unfold report_bogus_filters in H.
  destruct cluster_filter as [entries|]; [|done].
  by case_decide.
Qed.

(** X9: when the report runs to its end, it has made the print whose whole
    text is the heading of a cluster exactly when the cluster is deployed
    and the filter lets it through; and for a cluster named in the filter,
    either that print was made or the name is among the bogus clusters the
    warning lists, never both.  This is about the prints made, each taken
    whole: the warning is one print of several lines that ends with the
    bogus names as given, so a filter entry may put any text, a heading's
    too, on a line of its own inside the warning. *)
Theorem report_status_headings
    (get_pipeline_url : string → string) (blue red : string → string)
    (execute : remote_probe) (service : string) (targets : list string)
    (actual : gmap string string) (cluster_filter : option (list string))
    (verbose : bool) (probe : string → string → string) :
  Forall well_formed_target targets →
  (∀ cluster instance,
     execute "status" cluster service instance verbose
     = Ok (probe cluster instance)) →
  ∃ clusters,
    list_deployed_clusters targets actual = Ok clusters
    ∧ (∀ c, Stdout ("cluster: " +:+ c)
              ∈ (report_status get_pipeline_url blue red execute service
                   targets actual cluster_filter verbose).1
            ↔ c ∈ clusters ∧ in_filter cluster_filter c = true)
    ∧ (∀ entries c, cluster_filter = Some entries → c ∈ entries →
         (Stdout ("cluster: " +:+ c)
            ∈ (report_status get_pipeline_url blue red execute service
                 targets actual cluster_filter verbose).1
          ↔ c ∉ bogus_clusters entries clusters)).
Proof.
  intros Hwf Hprobe. exists (deployed_clusters_spec targets actual).
  assert (∀ c, Stdout ("cluster: " +:+ c)
              ∈ (report_status get_pipeline_url blue red execute service
                   targets actual cluster_filter verbose).1
            ↔ c ∈ deployed_clusters_spec targets actual
              ∧ in_filter cluster_filter c = true) as Hheading.
  { intros c.
    rewrite (report_status_returns _ _ _ _ _ _ _ _ probe) by done. simpl.
    rewrite elem_of_cons, elem_of_app, list_elem_of_bind,
      list_elem_of_singleton.
    unfold reported_clusters. split.
    - intros [H|[(c' & Hin & [Hf Hc']%list_elem_of_filter)|H]].
      + discriminate H.
      + apply heading_in_cluster_report in Hin as ->. done.
      + by apply heading_not_bogus_line in H.
    - intros [Hc Hf]. right. left. exists c. split.
      + by apply heading_in_cluster_report.
      + by apply list_elem_of_filter. }
  split_and!; [by apply list_deployed_clusters_ok|done|].
  intros entries c -> Hc. rewrite Hheading, bogus_clusters_filter.
  rewrite list_elem_of_filter. simpl. rewrite bool_decide_eq_true.
  destruct (decide (c ∈ deployed_clusters_spec targets actual)); tauto.
Qed.

Lemma report_status_headings_witness :
  ∃ clusters,
    list_deployed_clusters Sample.targets Sample.actual = Ok clusters
    ∧ Stdout "cluster: norcal-prod"
        ∈ (report_status Sample.pipeline_url Sample.blue Sample.red
             Sample.probe "myservice" Sample.targets Sample.actual
             (Some ["norcal-prod"; "nova-prod"]) false).1
    ∧ "nova-prod" ∈ bogus_clusters ["norcal-prod"; "nova-prod"] clusters.
Proof.
  destruct (report_status_headings Sample.pipeline_url Sample.blue Sample.red
              Sample.probe "myservice" Sample.targets Sample.actual
              (Some ["norcal-prod"; "nova-prod"]) false
              (λ _ _, "Marathon: up"))
    as (clusters & Hrun & Hheading & _); [solve_Forall|reflexivity|].
  exists clusters. split; [exact Hrun|].
  assert (clusters = ["norcal-prod"]) as -> by (by injection Hrun).
  split.
  - apply (Hheading "norcal-prod"). split; [apply list_elem_of_here|reflexivity].
  - apply list_elem_of_here.
Defined.

(** ** The probe's text *)




(** ** Which probes the report depends on *)

Lemma report_target_same_probe blue red (execute execute' : remote_probe)
    service cluster (actual : gmap string string) verbose target :
  (cluster_of target = cluster → is_Some (actual !! target) →
   execute "status" cluster service (instance_of target) verbose
   = execute' "status" cluster service (instance_of target) verbose) →
  report_target blue red execute service cluster actual verbose target
  = report_target blue red execute' service cluster actual verbose target.
Proof.
  intros Hsame. unfold report_target.
  destruct (split2_cases "." target) as [[_ ->]|[_ ->]]; [|done].
  unfold lift. rewrite !io_bind_ok. simpl. fold (cluster_of target).
  case_decide as Hc; [done|].
  unfold instance_status. fold (instance_of target).
  destruct (actual !! target) as [sha|] eqn:Hsha; [|done].
  by rewrite Hsame.
Qed.

(** X11: the report depends on the probe only at the deployed targets of
    the clusters it reports: two probes that answer alike for every target
    that is a key of the mapping and whose cluster the filter lets through
    give the same report, so what a probe would say of an instance that is
    not deployed, or of a cluster the filter leaves out, never shows. *)
Theorem report_status_probes_needed
    (get_pipeline_url : string → string) (blue red : string → string)
    (execute execute' : remote_probe) (service : string)
    (targets : list string) (actual : gmap string string)
    (cluster_filter : option (list string)) (verbose : bool) :
  (∀ target, target ∈ targets → is_Some (actual !! target) →
     in_filter cluster_filter (cluster_of target) = true →
     execute "status" (cluster_of target) service (instance_of target) verbose
     = execute' "status" (cluster_of target) service (instance_of target)
         verbose) →
  report_status get_pipeline_url blue red execute service targets actual
    cluster_filter verbose
  = report_status get_pipeline_url blue red execute' service targets actual
      cluster_filter verbose.
Proof.
  intros Hsame. unfold report_status.
  destruct (list_deployed_clusters targets actual) as [clusters|e]; [|done].
  unfold lift, print. rewrite !io_bind_ok. simpl.
  rewrite (for_each_ext clusters _
    (λ cluster, if in_filter cluster_filter cluster
                then report_status_for_cluster blue red execute' service
                       cluster targets actual verbose
                else mret tt)); [done|].
  apply Forall_forall. intros cluster _.
  destruct (in_filter cluster_filter cluster) eqn:Hf; [|done].
  rewrite !report_status_for_cluster_unfold.
  rewrite (for_each_ext targets _
    (report_target blue red execute' service cluster actual verbose)); [done|].
  apply Forall_forall. intros target Hin.
  apply report_target_same_probe. intros <- Hdep. by apply Hsame.
Qed.

Lemma report_status_probes_needed_witness :
  report_status Sample.pipeline_url Sample.blue Sample.red Sample.probe
    "myservice" Sample.targets Sample.everywhere (Some ["nova-prod"]) false
  = report_status Sample.pipeline_url Sample.blue Sample.red
      Sample.failing_probe "myservice" Sample.targets Sample.everywhere
      (Some ["nova-prod"]) false.
Proof.
  apply (report_status_probes_needed Sample.pipeline_url Sample.blue
           Sample.red Sample.probe Sample.failing_probe "myservice"
           Sample.targets Sample.everywhere (Some ["nova-prod"]) false).
  intros target Hin _. revert Hin. unfold Sample.targets.
  rewrite !elem_of_cons, elem_of_nil.
  intros [->|[->|[]]]; [discriminate|reflexivity].
Defined.

(** ** From the record to the targets *)

Lemma piece_1_join sep a b :
  PyStr.count sep a = 0 → PyStr.count sep b = 0 →
  piece sep 1 (a +:+ String sep b) = b.
Proof.
  intros Ha Hb. unfold piece. by rewrite split_app_sep, split_no_sep.
Qed.

(** X12: a deployment recorded under the key service:paasta-target is found
    in the mapping under the target itself, with the version of its image,
    when no later entry of the service ends under the same key: the keys of
    the record written that way are the targets the planner yields. *)
Theorem recorded_deployment_found
    (soa_dir : string) (load : string → string → list (string * deployment))
    (service target : string) (d : deployment)
    (pre post : list (string * deployment)) :
  load service soa_dir
  = pre ++ (service +:+ ":paasta-" +:+ target, d) :: post →
  PyStr.count ":" service = 0 → PyStr.count ":" target = 0 →
  Forall (λ kv, well_formed_key kv.1) (pre ++ post) →
  Forall (λ kv, service_of kv.1 = service →
                PyStr.replace_first "paasta-" "" (namespace_of kv.1) ≠ target)
    post →
  ∃ actual,
    (get_actual_deployments soa_dir load service).2 = Ok actual
    ∧ actual !! target = Some (image_sha (docker_image d)).
Proof.
  intros Hitems Hservice Htarget [Hpre Hpost]%Forall_app Hlater.
  assert (PyStr.count ":" ("paasta-" +:+ target) = 0) as Hns.
  { by rewrite count_app, Htarget. }
  assert (service_of (service +:+ ":paasta-" +:+ target) = service) as Hs.
  { by apply (piece_0_join ":"). }
  assert (namespace_of (service +:+ ":paasta-" +:+ target)
          = "paasta-" +:+ target) as Hn.
  { by apply (piece_1_join ":"). }
  assert (well_formed_key (service +:+ ":paasta-" +:+ target)) as Hkey.
  { unfold well_formed_key, one_sep.
    change (service +:+ ":paasta-" +:+ target)
      with (service +:+ String ":" ("paasta-" +:+ target)).
    rewrite count_app, Hservice.
    change (PyStr.count ":" (String ":" ("paasta-" +:+ target)))
      with (S (PyStr.count ":" ("paasta-" +:+ target))).
    by rewrite Hns. }
  rewrite get_actual_deployments_unfold, Hitems. simpl.
  destruct (read_deployments_cases service
              (pre ++ (service +:+ ":paasta-" +:+ target, d) :: post))
    as [[_ (actual & -> & Hlookup)]|[Hbad _]].
  - exists actual. split; [done|]. rewrite Hlookup.
    unfold entries_for. rewrite filter_app, filter_cons_True.
    + rewrite (filter_none _ post).
      * by rewrite last_snoc.
      * eapply Forall_impl; [exact Hlater|]. simpl. tauto.
    + simpl. by rewrite Hs, Hn.
  - apply Exists_not_Forall in Hbad. destruct Hbad.
    apply Forall_app. split; [done|]. by apply Forall_cons_2.
Qed.

Lemma recorded_deployment_found_witness :
  ∃ actual,
    (get_actual_deployments "/nail/etc/services"
       (λ _ _, [("other:paasta-norcal-prod.main",
                 {| docker_image := "services-other-ffff0000" |});
                ("myservice:paasta-norcal-prod.main",
                 {| docker_image := "services-myservice-a1b2c3d4" |})])
       "myservice").2 = Ok actual
    ∧ actual !! "norcal-prod.main" = Some "a1b2c3d4".
Proof.
  apply (recorded_deployment_found "/nail/etc/services"
    (λ _ _, [("other:paasta-norcal-prod.main",
              {| docker_image := "services-other-ffff0000" |});
             ("myservice:paasta-norcal-prod.main",
              {| docker_image := "services-myservice-a1b2c3d4" |})])
    "myservice" "norcal-prod.main"
    {| docker_image := "services-myservice-a1b2c3d4" |}
    [("other:paasta-norcal-prod.main",
      {| docker_image := "services-other-ffff0000" |})] []).
  - reflexivity.
  - reflexivity.
  - reflexivity.
  - solve_Forall.
  - apply Forall_nil_2.
Defined.
